(** * A shallow embedding of the stdio JSON-RPC server of [server_standalone.py]

    The development follows the class [MCPServer]: the registries it keeps
    ([tools], [tool_functions], [resources]), schema synthesis
    ([_get_schema], [_python_type_to_json_type]), the dispatcher
    ([handle_request] and its five handlers), and the transport loop ([run]).

    Python objects are values of one inductive type; a [dict] is an
    association list in insertion order; a computation that may raise is a
    function from the state of the outside world to an outcome and a new
    world. *)

From Stdlib Require Import String Ascii List ZArith Bool Arith Lia DecimalString.
Import ListNotations.

Set Warnings "-register-all".

Open Scope string_scope.
Open Scope list_scope.

(* ================================================================== *)
(** ** Python values *)

(** The objects that flow through the server: what [json.loads] produces
    ([None], [bool], [int], [float], [str], [list], [dict] with [str] keys)
    and, for what a handler may return, any other object, which [json.dumps]
    refuses.  A [float] is kept as its IEEE-754 binary64 bit pattern. *)
Inductive value : Type :=
| VNone
| VBool (b : bool)
| VInt (z : Z)
| VFloat (bits : Z)
| VStr (s : string)
| VList (items : list value)
| VDict (entries : list (string * value))
| VObject (cls : string).

(** *** [dict]: insertion-ordered, keyed by [str] *)

Definition dict (V : Type) : Type := list (string * V).

(** [d.get(key)] as an option ([d[key]] when the key is present). *)
Fixpoint dict_get {V : Type} (d : dict V) (key : string) : option V :=
  match d with
  | [] => None
  | (k, v) :: d' => if String.eqb k key then Some v else dict_get d' key
  end.

(** [key in d]. *)
Definition dict_contains {V : Type} (d : dict V) (key : string) : bool :=
  match dict_get d key with
  | Some _ => true
  | None => false
  end.

(** [d[key] = v]: an existing key keeps its position and takes the new
    value, a new key goes to the end. *)
Fixpoint dict_set {V : Type} (d : dict V) (key : string) (v : V) : dict V :=
  match d with
  | [] => [(key, v)]
  | (k, x) :: d' =>
      if String.eqb k key then (k, v) :: d' else (k, x) :: dict_set d' key v
  end.

(** [d.get(key, default)]. *)
Definition dict_get_default {V : Type} (d : dict V) (key : string) (default : V) : V :=
  match dict_get d key with
  | Some v => v
  | None => default
  end.

(** [list(d)] / iteration over [d]: the keys in insertion order. *)
Definition dict_keys {V : Type} (d : dict V) : list string := map fst d.

(** [list(d.values())]. *)
Definition dict_values {V : Type} (d : dict V) : list V := map snd d.

(** *** [str]: [in], [find] and [split] *)

(** [s[n:]]. *)
Fixpoint str_drop (n : nat) (s : string) : string :=
  match n, s with
  | O, _ => s
  | S _, EmptyString => EmptyString
  | S n', String _ s' => str_drop n' s'
  end.

(** The first occurrence of [sep] in [s], left to right: the text before it
    and the text after it. *)
Fixpoint str_partition (sep s : string) : option (string * string) :=
  if String.prefix sep s then Some (EmptyString, str_drop (String.length sep) s)
  else
    match s with
    | EmptyString => None
    | String c s' =>
        match str_partition sep s' with
        | Some (before, after) => Some (String c before, after)
        | None => None
        end
    end.

(** [sep in s]. *)
Definition str_contains (sep s : string) : bool :=
  match str_partition sep s with
  | Some _ => true
  | None => false
  end.

(** [s.split(sep)] for a non-empty [sep]: cut at each occurrence found from
    the left, the search resuming after the occurrence.  [fuel] bounds the
    number of cuts; [str_split] gives one unit per character, which is
    never used up ([str_split_fuel_enough]). *)
Fixpoint str_split_fuel (fuel : nat) (sep s : string) : list string :=
  match fuel with
  | O => [s]
  | S fuel' =>
      match str_partition sep s with
      | None => [s]
      | Some (before, after) => before :: str_split_fuel fuel' sep after
      end
  end.

Definition str_split (sep s : string) : list string :=
  str_split_fuel (String.length s) sep s.

(* ================================================================== *)
(** ** Exceptions and outcomes *)

(** A raised exception, with its class name and [str(e)].  [Exc] is an
    instance of [Exception], which [except Exception] catches; [BaseExc] is
    one that is not ([SystemExit], [KeyboardInterrupt]). *)
Inductive pyexc : Type :=
| Exc (cls : string) (msg : string)
| BaseExc (cls : string) (msg : string).

Inductive outcome (A : Type) : Type :=
| Returns (a : A)
| Raises (e : pyexc).

Arguments Returns {A} a.
Arguments Raises {A} e.

(** The exceptions the interpreter and the [json] module raise on the
    server's own operations. *)
Inductive interp_error : Type :=
| NoAttribute (v : value) (attr : string)
| Unhashable (v : value)
| NotAMapping (fname : string) (v : value)
| UnexpectedKeyword (fname : string) (key : string)
| MissingArguments (fname : string) (names : list string)
| NotSerializable (cls : string)
| NoSuchKey (key : value)
| IndexOutOfRange.

Definition error_class (e : interp_error) : string :=
  match e with
  | NoAttribute _ _ => "AttributeError"
  | Unhashable _ => "TypeError"
  | NotAMapping _ _ => "TypeError"
  | UnexpectedKeyword _ _ => "TypeError"
  | MissingArguments _ _ => "TypeError"
  | NotSerializable _ => "TypeError"
  | NoSuchKey _ => "KeyError"
  | IndexOutOfRange => "IndexError"
  end.

(* ================================================================== *)
(** ** Signatures *)

(** The objects an annotation or an [__origin__] can be, as keys of
    [type_map]: the six builtin classes, or anything else. *)
Inductive pytype : Type :=
| Tint | Tfloat | Tstr | Tbool | Tlist | Tdict
| Tother (qualname : string).

(** A parameter annotation that has a hash: a class, a generic alias such
    as [List[int]] or [Dict[str, Any]] (the objects with an [__origin__]),
    or a [str] instance.  An annotation without a hash (a list or [dict]
    display) is an [Inspect.annotation_object]. *)
Inductive annotation : Type :=
| AClass (c : pytype)
| AAlias (origin : pytype) (args : list annotation)
| AText (s : string).

(** One entry of [inspect.signature(func).parameters], for the functions
    the registries of this development hold: a positional-or-keyword
    parameter whose annotation, if any, has a hash, and whose default, if
    any, is a value of ordinary equality, so that
    [param.default == inspect.Parameter.empty] holds exactly when there is
    none.  [None] stands for [inspect.Parameter.empty].  The other
    parameters Python allows are in [Inspect.parameter], with schema
    synthesis and binding on them; on the parameters here the two agree
    ([get_schema_of_params], [binds_of_params]). *)
Record param : Type := {
  p_name : string;
  p_annotation : option annotation;
  p_default : option value
}.

Definition pytype_eqb (a b : pytype) : bool :=
  match a, b with
  | Tint, Tint | Tfloat, Tfloat | Tstr, Tstr
  | Tbool, Tbool | Tlist, Tlist | Tdict, Tdict => true
  | _, _ => false
  end.

(** [type_map] of [_python_type_to_json_type]. *)
Definition type_map : list (pytype * string) :=
  [ (Tint, "integer"); (Tfloat, "number"); (Tstr, "string");
    (Tbool, "boolean"); (Tlist, "array"); (Tdict, "object") ].

(** [type_map.get(key, default)]: only a class object can equal a key. *)
Definition type_map_get (key : annotation) (default : string) : string :=
  match key with
  | AClass c =>
      match find (fun kv => pytype_eqb (fst kv) c) type_map with
      | Some kv => snd kv
      | None => default
      end
  | AAlias _ _ | AText _ => default
  end.

Definition _python_type_to_json_type (python_type : annotation) : string :=
  match python_type with
  | AAlias origin _ => type_map_get (AClass origin) "string"
  | _ => type_map_get python_type "string"
  end.

(** [param.annotation if param.annotation != inspect.Parameter.empty else "string"]. *)
Definition param_type (p : param) : annotation :=
  match p_annotation p with
  | Some a => a
  | None => AText "string"
  end.

(** One turn of the loop of [_get_schema] over [sig.parameters.items()],
    on a [param]: its annotation is hashed without error, and its default
    equals the marker only when it is the marker. *)
Definition schema_step (acc : dict value * list string) (p : param)
  : dict value * list string :=
  let '(properties, required) := acc in
  if String.eqb (p_name p) "self" then (properties, required)
  else
    let properties' :=
      dict_set properties (p_name p)
        (VDict [("type", VStr (_python_type_to_json_type (param_type p)))]) in
    match p_default p with
    | None => (properties', required ++ [p_name p])
    | Some _ => (properties', required)
    end.

Definition schema_loop (params : list param) : dict value * list string :=
  fold_left schema_step params ([], []).

Definition schema_of_params (params : list param) : value :=
  let '(properties, required) := schema_loop params in
  VDict [ ("type", VStr "object");
          ("properties", VDict properties);
          ("required", VList (map VStr required)) ].

(* ================================================================== *)
(** ** What [json] can encode *)

(** The class of the first object inside [v] that [json.dumps] has no
    encoding for, in the order the encoder walks [v]. *)
Fixpoint first_object (v : value) : option string :=
  match v with
  | VObject cls => Some cls
  | VList items =>
      (fix walk (l : list value) : option string :=
         match l with
         | [] => None
         | x :: l' =>
             match first_object x with
             | Some cls => Some cls
             | None => walk l'
             end
         end) items
  | VDict entries =>
      (fix walk (l : list (string * value)) : option string :=
         match l with
         | [] => None
         | (_, x) :: l' =>
             match first_object x with
             | Some cls => Some cls
             | None => walk l'
             end
         end) entries
  | _ => None
  end.

(* ================================================================== *)
(** ** The Python runtime the server runs on *)

(** What the source takes from the interpreter and the standard library
    without defining it: the outside world its handlers read and change
    (the operating system behind [psutil]), the JSON parser and printer,
    [repr] on values other than text, and the wording of the messages of
    the interpreter's own exceptions. *)
Class PyRuntime : Type := {
  World : Type;
  (** [json.loads(line)]: the decoded value, or [str(e)] of the
      [json.JSONDecodeError] it raises. *)
  json_loads : string -> value + string;
  (** What it decodes holds JSON values only. *)
  json_loads_decoded : forall line v, json_loads line = inl v -> first_object v = None;
  (** The text [json.dumps(v, indent=indent)] writes for a serializable [v]. *)
  json_encode : option nat -> value -> string;
  py_repr : value -> string;
  interp_msg : interp_error -> string
}.

Section Server.

Context {RT : PyRuntime}.

Definition raised (e : interp_error) : pyexc := Exc (error_class e) (interp_msg e).

(** [str(v)], as an f-string formats [{v}]. *)
Definition py_str (v : value) : string :=
  match v with
  | VStr s => s
  | VNone => "None"
  | VBool true => "True"
  | VBool false => "False"
  | _ => py_repr v
  end.

(** [json.dumps(v, indent=indent)]. *)
Definition json_dumps (indent : option nat) (v : value) : outcome string :=
  match first_object v with
  | Some cls => Raises (raised (NotSerializable cls))
  | None => Returns (json_encode indent v)
  end.

(** [obj.get(key, default)]: only a [dict] has the method. *)
Definition py_get (obj : value) (key : string) (default : value) : outcome value :=
  match obj with
  | VDict d => Returns (dict_get_default d key default)
  | _ => Raises (raised (NoAttribute obj "get"))
  end.

(** [list] and [dict] objects have no hash; every other object has one. *)
Definition hashable (v : value) : bool :=
  match v with
  | VList _ | VDict _ => false
  | _ => true
  end.

(** Whether the object [key] equals one of the keys of a registry [d],
    which are all [str]. *)
Definition is_key {V : Type} (d : dict V) (key : value) : bool :=
  match key with
  | VStr s => dict_contains d s
  | _ => false
  end.

(** [key not in d] for a registry [d]: the key is hashed, then looked up. *)
Definition py_not_in {V : Type} (key : value) (d : dict V) : outcome bool :=
  if hashable key then Returns (negb (is_key d key))
  else Raises (raised (Unhashable key)).

(** [d[key]] for a registry [d]. *)
Definition py_getitem {V : Type} (d : dict V) (key : value) : outcome V :=
  if hashable key then
    match key with
    | VStr s =>
        match dict_get d s with
        | Some v => Returns v
        | None => Raises (raised (NoSuchKey key))
        end
    | _ => Raises (raised (NoSuchKey key))
    end
  else Raises (raised (Unhashable key)).

(** [v == text] for a [str] literal [text]. *)
Definition py_eq_str (v : value) (text : string) : bool :=
  match v with
  | VStr s => String.eqb s text
  | _ => false
  end.

(** *** Computations: a world in, an outcome and a world out *)

Definition M (A : Type) : Type := World -> outcome A * World.

Definition ret {A : Type} (a : A) : M A := fun w => (Returns a, w).

Definition raise {A : Type} (e : pyexc) : M A := fun w => (Raises e, w).

Definition lift {A : Type} (o : outcome A) : M A := fun w => (o, w).

Definition bind {A B : Type} (m : M A) (k : A -> M B) : M B :=
  fun w =>
    match m w with
    | (Returns a, w') => k a w'
    | (Raises e, w') => (Raises e, w')
    end.

(** [try: body  except Exception as e: handler(str(e))]. *)
Definition try_except_Exception {A : Type} (body : M A) (handler : string -> M A) : M A :=
  fun w =>
    match body w with
    | (Raises (Exc _ msg), w') => handler msg w'
    | r => r
    end.

#[local] Notation "x <- m ;; k" := (bind m (fun x => k))
  (at level 61, m at next level, right associativity).

(** *** Handlers *)

(** A registered function: what [tool] and [_get_schema] read off it
    ([__name__], [__doc__], its parameters, all of the plain
    positional-or-keyword kind) and its body, run on the bound arguments. *)
Record pyfunc : Type := {
  fn_name : string;
  fn_doc : option string;
  fn_params : list param;
  fn_body : dict value -> M value
}.

Definition is_param (params : list param) (key : string) : bool :=
  existsb (fun p => String.eqb (p_name p) key) params.

Definition is_missing (kwargs : dict value) (p : param) : bool :=
  match p_default p with
  | None => negb (dict_contains kwargs (p_name p))
  | Some _ => false
  end.

Definition bound_value (kwargs : dict value) (p : param) : string * value :=
  (p_name p,
   match dict_get kwargs (p_name p) with
   | Some v => v
   | None => match p_default p with Some v => v | None => VNone end
   end).

(** Binding keyword arguments to the parameters, all positional-or-keyword:
    a keyword that names no parameter is refused first, then parameters
    left without a value.  ([Inspect.binds] is the rule for every kind of
    parameter.) *)
Definition bind_arguments (func : pyfunc) (kwargs : dict value) : outcome (dict value) :=
  match find (fun k => negb (is_param (fn_params func) k)) (dict_keys kwargs) with
  | Some k => Raises (raised (UnexpectedKeyword (fn_name func) k))
  | None =>
      match filter (is_missing kwargs) (fn_params func) with
      | [] => Returns (map (bound_value kwargs) (fn_params func))
      | missing => Raises (raised (MissingArguments (fn_name func) (map p_name missing)))
      end
  end.

(** [func( **kwargs)] for a [dict] of keyword arguments ([func()] when empty). *)
Definition py_call (func : pyfunc) (kwargs : dict value) : M value :=
  bound <- lift (bind_arguments func kwargs) ;;
  fn_body func bound.

(** [func( **arguments)] for any object [arguments]. *)
Definition py_call_star (func : pyfunc) (arguments : value) : M value :=
  match arguments with
  | VDict kwargs => py_call func kwargs
  | _ => raise (raised (NotAMapping (fn_name func) arguments))
  end.

Definition _get_schema (func : pyfunc) : value := schema_of_params (fn_params func).

(** *** The server object *)

Record MCPServer : Type := {
  name : string;
  tools : dict value;
  tool_functions : dict pyfunc;
  resources : dict pyfunc
}.

Definition __init__ (name : string) : MCPServer :=
  {| name := name; tools := []; tool_functions := []; resources := [] |}.

(** [@mcp.tool]. *)
Definition tool (self : MCPServer) (func : pyfunc) : MCPServer :=
  {| name := name self;
     tools :=
       dict_set (tools self) (fn_name func)
         (VDict [ ("name", VStr (fn_name func));
                  ("description",
                   VStr (match fn_doc func with Some d => d | None => "" end));
                  ("inputSchema", _get_schema func) ]);
     tool_functions := dict_set (tool_functions self) (fn_name func) func;
     resources := resources self |}.

(** [@mcp.resource(uri)]. *)
Definition resource (self : MCPServer) (uri : string) (func : pyfunc) : MCPServer :=
  {| name := name self;
     tools := tools self;
     tool_functions := tool_functions self;
     resources := dict_set (resources self) uri func |}.

(** *** Envelopes and the five handlers *)

Definition _error_response (request_id : value) (code : Z) (message : string) : value :=
  VDict [ ("jsonrpc", VStr "2.0");
          ("id", request_id);
          ("error", VDict [("code", VInt code); ("message", VStr message)]) ].

(** The success envelope every handler builds. *)
Definition result_response (request_id : value) (result : value) : value :=
  VDict [ ("jsonrpc", VStr "2.0"); ("id", request_id); ("result", result) ].

Definition _handle_initialize (self : MCPServer) (request_id : value) : value :=
  result_response request_id
    (VDict [ ("protocolVersion", VStr "2024-11-05");
             ("capabilities", VDict [("tools", VDict []); ("resources", VDict [])]);
             ("serverInfo", VDict [("name", VStr (name self)); ("version", VStr "1.0.0")]) ]).

Definition _handle_tools_list (self : MCPServer) (request_id : value) : value :=
  result_response request_id (VDict [("tools", VList (dict_values (tools self)))]).

Definition _handle_tool_call (self : MCPServer) (params request_id : value) : M value :=
  tool_name <- lift (py_get params "name" VNone) ;;
  arguments <- lift (py_get params "arguments" (VDict [])) ;;
  unknown <- lift (py_not_in tool_name (tools self)) ;;
  if (unknown : bool) then
    ret (_error_response request_id (-32602) ("Unknown tool: " ++ py_str tool_name))
  else
    func <- lift (py_getitem (tool_functions self) tool_name) ;;
    result <- py_call_star func arguments ;;
    text <- lift (json_dumps (Some 2%nat) result) ;;
    ret (result_response request_id
           (VDict [("content", VList [VDict [("type", VStr "text"); ("text", VStr text)]])])).

(** [uri.split("://")[1] if "://" in uri else uri]. *)
Definition resource_name (uri : string) : outcome string :=
  if str_contains "://" uri then
    match nth_error (str_split "://" uri) 1 with
    | Some piece => Returns piece
    | None => Raises (raised IndexOutOfRange)
    end
  else Returns uri.

Definition resource_descriptor (uri name : string) : value :=
  VDict [("uri", VStr uri); ("name", VStr name); ("mimeType", VStr "text/plain")].

(** The loop of [_handle_resources_list] over the keys of [self.resources]. *)
Fixpoint resources_loop (uris : list string) (resources : list value) : outcome (list value) :=
  match uris with
  | [] => Returns resources
  | uri :: rest =>
      match resource_name uri with
      | Returns n => resources_loop rest (resources ++ [resource_descriptor uri n])
      | Raises e => Raises e
      end
  end.

Definition _handle_resources_list (self : MCPServer) (request_id : value) : M value :=
  listed <- lift (resources_loop (dict_keys (resources self)) []) ;;
  ret (result_response request_id (VDict [("resources", VList listed)])).

Definition _handle_resource_read (self : MCPServer) (params request_id : value) : M value :=
  uri <- lift (py_get params "uri" VNone) ;;
  unknown <- lift (py_not_in uri (resources self)) ;;
  if (unknown : bool) then
    ret (_error_response request_id (-32602) ("Unknown resource: " ++ py_str uri))
  else
    func <- lift (py_getitem (resources self) uri) ;;
    content <- py_call func [] ;;
    ret (result_response request_id
           (VDict [("contents",
                    VList [VDict [ ("uri", uri);
                                   ("mimeType", VStr "text/plain");
                                   ("text", content) ]])])).

(** The [if]/[elif] chain inside the [try] of [handle_request]. *)
Definition route (self : MCPServer) (method params request_id : value) : M value :=
  if py_eq_str method "initialize" then ret (_handle_initialize self request_id)
  else if py_eq_str method "tools/list" then ret (_handle_tools_list self request_id)
  else if py_eq_str method "tools/call" then _handle_tool_call self params request_id
  else if py_eq_str method "resources/list" then _handle_resources_list self request_id
  else if py_eq_str method "resources/read" then _handle_resource_read self params request_id
  else ret (_error_response request_id (-32601) ("Method not found: " ++ py_str method)).

Definition handle_request (self : MCPServer) (request : value) : M value :=
  method <- lift (py_get request "method" VNone) ;;
  params <- lift (py_get request "params" (VDict [])) ;;
  request_id <- lift (py_get request "id" VNone) ;;
  try_except_Exception
    (route self method params request_id)
    (fun msg => ret (_error_response request_id (-32603) msg)).

(** *** The transport loop *)

(** What the [try] of one turn of [run] does with a line that was read:
    decode, dispatch, encode. *)
Definition serve_line (self : MCPServer) (line : string) : M string :=
  request <- lift (match json_loads line with
                   | inl v => Returns v
                   | inr msg => Raises (Exc "JSONDecodeError" msg)
                   end) ;;
  response <- handle_request self request ;;
  lift (json_dumps None response).

(** How [run] ended: the input was exhausted, or an exception left the loop. *)
Inductive exit : Type :=
| EndOfInput
| Uncaught (e : pyexc).

(** [run] on the lines [sys.stdin.readline()] hands out, one per turn (an
    empty read is the end of the stream): the lines printed, how the loop
    ended, and the world it leaves. *)
Fixpoint run (self : MCPServer) (stdin : list string) (w : World)
  : list string * exit * World :=
  match stdin with
  | [] => ([], EndOfInput, w)
  | line :: rest =>
      if String.eqb line "" then ([], EndOfInput, w)
      else
        match serve_line self line w with
        | (Returns printed, w') =>
            let '(out, how, w'') := run self rest w' in (printed :: out, how, w'')
        | (Raises (Exc _ msg), w') =>
            match json_dumps None (_error_response VNone (-32700) ("Parse error: " ++ msg)) with
            | Returns printed =>
                let '(out, how, w'') := run self rest w' in (printed :: out, how, w'')
            | Raises e => ([], Uncaught e, w')
            end
        | (Raises e, w') => ([], Uncaught e, w')
        end
  end.

End Server.

(* ================================================================== *)
(** ** Registration sequences and the reading of the envelopes *)

Section Reading.

Context {RT : PyRuntime}.

(** One decorator applied at start-up. *)
Inductive registration : Type :=
| RegisterTool (func : pyfunc)
| RegisterResource (uri : string) (func : pyfunc).

Definition register (self : MCPServer) (r : registration) : MCPServer :=
  match r with
  | RegisterTool func => tool self func
  | RegisterResource uri func => resource self uri func
  end.

(** The server after the decorators [regs] ran, in order, on a fresh one. *)
Definition registered (server_name : string) (regs : list registration) : MCPServer :=
  fold_left register regs (__init__ server_name).

(** The function the latest [@mcp.tool] of a given [__name__] registered. *)
Fixpoint latest_tool (regs : list registration) (tool_name : string) : option pyfunc :=
  match regs with
  | [] => None
  | r :: regs' =>
      match latest_tool regs' tool_name with
      | Some func => Some func
      | None =>
          match r with
          | RegisterTool func =>
              if String.eqb (fn_name func) tool_name then Some func else None
          | RegisterResource _ _ => None
          end
      end
  end.

(** A response envelope: [jsonrpc], the [id], and one of [result] and [error]. *)
Definition is_response_envelope (request_id : value) (response : value) : Prop :=
  (exists result, response = result_response request_id result) \/
  (exists code message, response = _error_response request_id code message).

(** [response["id"]]. *)
Definition response_id (response : value) : option value :=
  match response with
  | VDict entries => dict_get entries "id"
  | _ => None
  end.

(** [response["error"]["code"]]. *)
Definition response_error_code (response : value) : option value :=
  match response with
  | VDict entries =>
      match dict_get entries "error" with
      | Some (VDict error) => dict_get error "code"
      | _ => None
      end
  | _ => None
  end.


(** [response["error"]["message"]]. *)
Definition response_error_message (response : value) : option value :=
  match response with
  | VDict entries =>
      match dict_get entries "error" with
      | Some (VDict error) => dict_get error "message"
      | _ => None
      end
  | _ => None
  end.

(** [response["result"]], when the envelope has one. *)
Definition response_result (response : value) : option value :=
  match response with
  | VDict entries => dict_get entries "result"
  | _ => None
  end.

(** The text of a URI after its first ["://"], or the URI when it has none:
    the name the data model gives a resource descriptor. *)
Definition path_after_separator (uri : string) : string :=
  match str_partition "://" uri with
  | Some (_, after) => after
  | None => uri
  end.

(** The text between the first ["://"] of a URI and the next one (or the
    end), or the URI when it has none. *)
Definition first_path_segment (uri : string) : string :=
  match str_partition "://" uri with
  | Some (_, after) =>
      match str_partition "://" after with
      | Some (segment, _) => segment
      | None => after
      end
  | None => uri
  end.

(** The parameter has no default: [param.default] is
    [inspect.Parameter.empty]. *)
Definition lacks_default (p : param) : bool :=
  match p_default p with
  | None => true
  | Some _ => false
  end.

(** The parameter is the receiver, [self]. *)
Definition is_receiver (p : param) : bool := String.eqb (p_name p) "self".

(** The request [fields] is routed to a registered function, which the
    dispatcher calls as [call]: a [tools/call] naming a registered tool, or
    a [resources/read] naming a registered URI. *)
Inductive handler_call (self : MCPServer) (fields : dict value) : M value -> Prop :=
| ToolCall (params : dict value) (tool_name : string) (func : pyfunc) :
    dict_get_default fields "method" VNone = VStr "tools/call" ->
    dict_get_default fields "params" (VDict []) = VDict params ->
    dict_get_default params "name" VNone = VStr tool_name ->
    dict_contains (tools self) tool_name = true ->
    dict_get (tool_functions self) tool_name = Some func ->
    handler_call self fields
      (py_call_star func (dict_get_default params "arguments" (VDict [])))
| ResourceRead (params : dict value) (uri : string) (func : pyfunc) :
    dict_get_default fields "method" VNone = VStr "resources/read" ->
    dict_get_default fields "params" (VDict []) = VDict params ->
    dict_get_default params "uri" VNone = VStr uri ->
    dict_get (resources self) uri = Some func ->
    handler_call self fields (py_call func []).

(** A function whose body fails, when it fails, with an instance of
    [Exception] (it never exits the interpreter or raises another
    [BaseException]). *)
Definition raises_only_exceptions (func : pyfunc) : Prop :=
  forall bound w cls msg w', fn_body func bound w <> (Raises (BaseExc cls msg), w').

(** Every registered tool and resource function is such a function. *)
Definition handlers_raise_only_exceptions (self : MCPServer) : Prop :=
  Forall raises_only_exceptions (dict_values (tool_functions self)) /\
  Forall raises_only_exceptions (dict_values (resources self)).

End Reading.

(* ================================================================== *)
(** ** A small runtime and three functions to run the server on *)

Module Demo.

(** The double quote character. *)
Definition dq : string := String (ascii_of_nat 34) EmptyString.

Definition quoted (s : string) : string := (dq ++ s ++ dq)%string.

Definition decimal (z : Z) : string := DecimalString.NilZero.string_of_int (Z.to_int z).

(** A compact printer for the values of the examples: text is quoted
    without escapes, a float stands as its bit pattern, [indent] is not
    used. *)
Fixpoint encode (v : value) : string :=
  match v with
  | VNone => "null"
  | VBool true => "true"
  | VBool false => "false"
  | VInt z => decimal z
  | VFloat bits => decimal bits
  | VStr s => quoted s
  | VList items =>
      ("[" ++ String.concat ", " (map encode items) ++ "]")%string
  | VDict entries =>
      ("{" ++ String.concat ", "
                (map (fun kv => (quoted (fst kv) ++ ": " ++ encode (snd kv))%string) entries)
           ++ "}")%string
  | VObject cls => cls
  end.

(** The request [tools/call] of [name] with [arguments], id 1. *)
Definition call_params (tool_name : value) (arguments : value) : dict value :=
  [("name", tool_name); ("arguments", arguments)].

Definition call_fields (tool_name : value) (arguments : value) : dict value :=
  [ ("jsonrpc", VStr "2.0"); ("id", VInt 1); ("method", VStr "tools/call");
    ("params", VDict (call_params tool_name arguments)) ].

Definition call_request (tool_name : value) (arguments : value) : value :=
  VDict (call_fields tool_name arguments).

(** The request [resources/read] of [uri], id 2. *)
Definition read_params (uri : value) : dict value := [("uri", uri)].

Definition read_fields (uri : value) : dict value :=
  [ ("jsonrpc", VStr "2.0"); ("id", VInt 2); ("method", VStr "resources/read");
    ("params", VDict (read_params uri)) ].

Definition read_request (uri : value) : value := VDict (read_fields uri).

Definition boom_request : value := call_request (VStr "boom") (VDict []).

(** A parser that knows the lines of the examples: the [tools/call] of
    [boom] as [encode] prints it, the empty object, the empty array. *)
Definition loads (line : string) : value + string :=
  if String.eqb line (encode boom_request) then inl boom_request
  else if String.eqb line "{}" then inl (VDict [])
  else if String.eqb line "[]" then inl (VList [])
  else inr "Expecting value: line 1 column 1 (char 0)".

(** The world is the number of calls that reached [boom]. *)
#[export] Instance runtime : PyRuntime := {|
  World := nat;
  json_loads := loads;
  json_loads_decoded :=
    ltac:(unfold loads; intros line v H;
          repeat (match type of H with
                  | context [if ?b then _ else _] => destruct b
                  end);
          inversion H; reflexivity);
  json_encode := fun _ v => encode v;
  py_repr := encode;
  interp_msg := fun e =>
    match e with
    | NoAttribute _ attr => ("object has no attribute " ++ attr)%string
    | Unhashable _ => "unhashable type"
    | NotAMapping fname _ => (fname ++ "() argument after ** must be a mapping")%string
    | UnexpectedKeyword fname key =>
        (fname ++ "() got an unexpected keyword argument " ++ key)%string
    | MissingArguments fname _ => (fname ++ "() missing required positional arguments")%string
    | NotSerializable cls => ("Object of type " ++ cls ++ " is not JSON serializable")%string
    | NoSuchKey key => encode key
    | IndexOutOfRange => "list index out of range"
    end
|}.

(** [def add(a: int, b: int = 0): return a + b]. *)
Definition add : pyfunc := {|
  fn_name := "add";
  fn_doc := None;
  fn_params :=
    [ {| p_name := "a"; p_annotation := Some (AClass Tint); p_default := None |};
      {| p_name := "b"; p_annotation := Some (AClass Tint); p_default := Some (VInt 0) |} ];
  fn_body := fun bound w =>
    match dict_get bound "a", dict_get bound "b" with
    | Some (VInt a), Some (VInt b) => (Returns (VInt (a + b)), w)
    | _, _ => (Raises (Exc "TypeError" "unsupported operand type(s) for +"), w)
    end
|}.

(** [def boom(): raise RuntimeError("boom")], counting its calls. *)
Definition boom : pyfunc := {|
  fn_name := "boom";
  fn_doc := Some "Always fails.";
  fn_params := [];
  fn_body := fun _ w => (Raises (Exc "RuntimeError" "boom"), S w)
|}.

(** [def status() -> str: return "ok"]. *)
Definition status : pyfunc := {|
  fn_name := "status";
  fn_doc := None;
  fn_params := [];
  fn_body := fun _ w => (Returns (VStr "ok"), w)
|}.

Definition regs : list registration :=
  [ RegisterTool add; RegisterTool boom;
    RegisterResource "system://status" status;
    RegisterResource "a://b://c" status ].

Definition server : MCPServer := registered "SystemMonitor" regs.

End Demo.

(* ================================================================== *)
(** ** Registries and schemas as a caller sees them *)

Section Registries.

Context {RT : PyRuntime}.

(** The methods [handle_request] routes. *)
Definition known_method (method : value) : bool :=
  existsb (py_eq_str method)
    ["initialize"; "tools/list"; "tools/call"; "resources/list"; "resources/read"].

(** The descriptor [tool] stores for a function. *)
Definition tool_descriptor (func : pyfunc) : value :=
  VDict [ ("name", VStr (fn_name func));
          ("description", VStr (match fn_doc func with Some d => d | None => "" end));
          ("inputSchema", _get_schema func) ].

(** A list of names without its repetitions: each name stays where it
    first stands. *)
Fixpoint first_occurrences (names : list string) : list string :=
  match names with
  | [] => []
  | n :: names' => n :: filter (fun m => negb (String.eqb m n)) (first_occurrences names')
  end.

(** The [__name__] of the functions [@mcp.tool] was applied to, in order. *)
Definition tool_names (regs : list registration) : list string :=
  flat_map (fun r => match r with
                     | RegisterTool func => [fn_name func]
                     | RegisterResource _ _ => []
                     end) regs.

(** The URIs [@mcp.resource] was applied with, in order. *)
Definition resource_uris (regs : list registration) : list string :=
  flat_map (fun r => match r with
                     | RegisterTool _ => []
                     | RegisterResource uri _ => [uri]
                     end) regs.

(** The function the latest [@mcp.resource] of a given URI registered. *)
Fixpoint latest_resource (regs : list registration) (uri : string) : option pyfunc :=
  match regs with
  | [] => None
  | r :: regs' =>
      match latest_resource regs' uri with
      | Some func => Some func
      | None =>
          match r with
          | RegisterTool _ => None
          | RegisterResource uri' func => if String.eqb uri' uri then Some func else None
          end
      end
  end.

(** The keys a dictionary has after the keys [names] were assigned in order. *)
Definition keys_after (keys names : list string) : list string :=
  fold_left (fun ks n => if existsb (String.eqb n) ks then ks else ks ++ [n]) names keys.

(** The descriptor map mirrors the handler map, entry by entry. *)
Definition in_lockstep (self : MCPServer) : Prop :=
  tools self = map (fun kv => (fst kv, tool_descriptor (snd kv))) (tool_functions self) /\
  Forall (fun kv => fst kv = fn_name (snd kv)) (tool_functions self) /\
  NoDup (dict_keys (tool_functions self)).

(** [schema["required"]], as a list of names. *)
Definition schema_required (schema : value) : list string :=
  match schema with
  | VDict entries =>
      match dict_get entries "required" with
      | Some (VList items) =>
          flat_map (fun v => match v with VStr s => [s] | _ => [] end) items
      | _ => []
      end
  | _ => []
  end.

(** [schema["properties"]]. *)
Definition schema_properties (schema : value) : dict value :=
  match schema with
  | VDict entries =>
      match dict_get entries "properties" with
      | Some (VDict properties) => properties
      | _ => []
      end
  | _ => []
  end.

(** The values of [type_map], and its default. *)
Definition json_type_names : list string :=
  ["integer"; "number"; "string"; "boolean"; "array"; "object"].

(** The codes [handle_request] puts in an error envelope. *)
Definition dispatcher_error_codes : list Z := [-32601; -32602; -32603]%Z.

(** A line the loop printed: the encoding of a response envelope. *)
Definition is_printed_envelope (printed : string) : Prop :=
  exists request_id response,
    is_response_envelope request_id response /\ printed = json_encode None response.

End Registries.

(* ================================================================== *)
(** ** Signatures in full: what [inspect.signature] can hand out *)

(** A function handed to [@mcp.tool] may have parameters of any kind, an
    annotation that is any object, and a default that is any object.
    [Inspect] has such signatures, schema synthesis on them, which may
    raise, and the rule by which Python accepts or refuses a call with
    keyword arguments only. *)
Module Inspect.

(** [param.kind]. *)
Inductive kind : Type :=
| POSITIONAL_ONLY
| POSITIONAL_OR_KEYWORD
| VAR_POSITIONAL
| KEYWORD_ONLY
| VAR_KEYWORD.

(** [param.default]: the marker [inspect.Parameter.empty], a value of
    ordinary equality (it equals the marker never), or an object of a class
    that defines [__eq__], given with what
    [if param.default == inspect.Parameter.empty] makes of it: the test
    holds ([unittest.mock.ANY] equals everything), fails, or raises (the
    comparison of a [numpy] array is an array, which has no truth value). *)
Inductive default_object : Type :=
| empty_default
| default_value (v : value)
| default_with_eq (cls : string) (equals_empty : outcome bool).

(** [param.annotation]: the marker; a class, a generic alias or text; or
    any other value, such as [None], a number, or the list [[int]], which
    has no hash. *)
Inductive annotation_object : Type :=
| empty_annotation
| annotation_of (a : annotation)
| annotation_value (v : value).

Record parameter : Type := {
  par_name : string;
  par_kind : kind;
  par_annotation : annotation_object;
  par_default : default_object
}.

Section Synthesis.

Context {RT : PyRuntime}.

(** [param.annotation != inspect.Parameter.empty]. *)
Definition is_annotated (a : annotation_object) : bool :=
  match a with
  | empty_annotation => false
  | _ => true
  end.

(** [param.default == inspect.Parameter.empty], as the [if] tests it. *)
Definition default_is_empty (d : default_object) : outcome bool :=
  match d with
  | empty_default => Returns true
  | default_value _ => Returns false
  | default_with_eq _ equals_empty => equals_empty
  end.

(** [_python_type_to_json_type]: [type_map.get] hashes its key, and no
    value equals one of the six classes. *)
Definition _python_type_to_json_type (python_type : annotation_object) : outcome string :=
  match python_type with
  | annotation_of (AAlias origin _) => Returns (type_map_get (AClass origin) "string")
  | annotation_of a => Returns (type_map_get a "string")
  | empty_annotation => Returns "string"
  | annotation_value v =>
      if hashable v then Returns "string" else Raises (raised (Unhashable v))
  end.

(** The loop of [_get_schema] over [sig.parameters.items()]. *)
Fixpoint schema_loop (parameters : list parameter) (properties : dict value)
    (required : list string) : outcome (dict value * list string) :=
  match parameters with
  | [] => Returns (properties, required)
  | p :: rest =>
      if String.eqb (par_name p) "self" then schema_loop rest properties required
      else
        let param_type :=
          if is_annotated (par_annotation p) then par_annotation p
          else annotation_of (AText "string") in
        match _python_type_to_json_type param_type with
        | Raises e => Raises e
        | Returns json_type =>
            let properties' :=
              dict_set properties (par_name p) (VDict [("type", VStr json_type)]) in
            match default_is_empty (par_default p) with
            | Raises e => Raises e
            | Returns true => schema_loop rest properties' (required ++ [par_name p])
            | Returns false => schema_loop rest properties' required
            end
        end
  end.

(** [_get_schema(func)], on the parameters [inspect.signature(func)] lists. *)
Definition _get_schema (parameters : list parameter) : outcome value :=
  match schema_loop parameters [] [] with
  | Returns (properties, required) =>
      Returns (VDict [ ("type", VStr "object");
                       ("properties", VDict properties);
                       ("required", VList (map VStr required)) ])
  | Raises e => Raises e
  end.

End Synthesis.

(** *** The call [func( **kwargs)] *)

(** A keyword can name the parameter. *)
Definition takes_keyword (p : parameter) : bool :=
  match par_kind p with
  | POSITIONAL_OR_KEYWORD | KEYWORD_ONLY => true
  | _ => false
  end.

(** The signature has a [**kwargs] parameter, which takes every keyword
    that names no other parameter. *)
Definition has_var_keyword (parameters : list parameter) : bool :=
  existsb (fun p => match par_kind p with VAR_KEYWORD => true | _ => false end) parameters.

Definition keyword_accepted (parameters : list parameter) (key : string) : bool :=
  has_var_keyword parameters ||
  existsb (fun p => takes_keyword p && String.eqb (par_name p) key) parameters.

(** The function was defined with a default for the parameter. *)
Definition has_default (p : parameter) : bool :=
  match par_default p with
  | empty_default => false
  | _ => true
  end.

(** The parameter gets a value: [*args] and [**kwargs] always do, another
    one from its default or from the keyword that names it. *)
Definition is_supplied (kwargs : dict value) (p : parameter) : bool :=
  match par_kind p with
  | VAR_POSITIONAL | VAR_KEYWORD => true
  | _ => has_default p || (takes_keyword p && dict_contains kwargs (par_name p))
  end.

(** Python accepts the call [func( **kwargs)]: no [TypeError] for an
    unexpected keyword or a missing argument. *)
Definition binds (parameters : list parameter) (kwargs : dict value) : bool :=
  forallb (keyword_accepted parameters) (dict_keys kwargs) &&
  forallb (is_supplied kwargs) parameters.

(** *** Reading a signature and its schema *)

(** A [param] as a [parameter]. *)
Definition of_param (p : param) : parameter :=
  {| par_name := p_name p;
     par_kind := POSITIONAL_OR_KEYWORD;
     par_annotation :=
       match p_annotation p with
       | Some a => annotation_of a
       | None => empty_annotation
       end;
     par_default :=
       match p_default p with
       | Some v => default_value v
       | None => empty_default
       end |}.

(** The default is the marker or a value of ordinary equality. *)
Definition ordinary_default (p : parameter) : Prop :=
  forall cls equals_empty, par_default p <> default_with_eq cls equals_empty.


(** The parameter is not [self] and its default equals the marker. *)
Definition equals_empty_default (p : parameter) : bool :=
  negb (String.eqb (par_name p) "self") &&
  match default_is_empty (par_default p) with
  | Returns b => b
  | Raises _ => false
  end.

(** [def f(x=unittest.mock.ANY)]. *)
Definition any_default : list parameter :=
  [ {| par_name := "x"; par_kind := POSITIONAL_OR_KEYWORD;
       par_annotation := empty_annotation;
       par_default := default_with_eq "_ANY" (Returns true) |} ].

(** The list [[int]]: one item, the class [int]. *)
Definition list_of_int : value := VList [VObject "type"].

(** [def f(x: [int])]. *)
Definition list_annotation : list parameter :=
  [ {| par_name := "x"; par_kind := POSITIONAL_OR_KEYWORD;
       par_annotation := annotation_value list_of_int;
       par_default := empty_default |} ].

(** [def g( *args, **kwargs)]. *)
Definition variadic : list parameter :=
  [ {| par_name := "args"; par_kind := VAR_POSITIONAL;
       par_annotation := empty_annotation; par_default := empty_default |};
    {| par_name := "kwargs"; par_kind := VAR_KEYWORD;
       par_annotation := empty_annotation; par_default := empty_default |} ].

End Inspect.

(* ================================================================== *)
(** ** Three of the registered tools: [kill_process], [get_disk_usage]
       and [get_cpu_usage] *)

(** [bool(v)], as [if v:] tests it; an object of any other class is true. *)
Definition py_truthy (v : value) : bool :=
  match v with
  | VNone => false
  | VBool b => b
  | VInt z => negb (Z.eqb z 0)
  | VFloat bits => negb (Z.eqb bits 0 || Z.eqb bits (2 ^ 63))
  | VStr s => negb (String.eqb s "")
  | VList [] => false
  | VList (_ :: _) => true
  | VDict [] => false
  | VDict (_ :: _) => true
  | VObject _ => true
  end.

(** [isinstance(e, C)] for a class [C] given with its subclasses, by name. *)
Definition exception_is (classes : list string) (e : pyexc) : bool :=
  match e with
  | Exc cls _ => existsb (String.eqb cls) classes
  | BaseExc _ _ => false
  end.

(** [psutil.NoSuchProcess], of which [psutil.ZombieProcess] is a subclass. *)
Definition NoSuchProcess : list string := ["NoSuchProcess"; "ZombieProcess"].

Definition AccessDenied : list string := ["AccessDenied"].

Definition PermissionError : list string := ["PermissionError"].

Definition FileNotFoundError : list string := ["FileNotFoundError"].

(** What [psutil.cpu_freq()] returns when it returns a reading. *)
Record scpufreq : Type := {
  freq_current : value;
  freq_min : value;
  freq_max : value
}.

(** An item of [psutil.disk_partitions()]. *)
Record sdiskpart : Type := {
  part_device : string;
  part_mountpoint : string;
  part_fstype : string
}.

(** What [psutil.disk_usage(path)] returns; [usage_percent] is a [float]. *)
Record sdiskusage : Type := {
  usage_total : Z;
  usage_used : Z;
  usage_free : Z;
  usage_percent : value
}.

(** What the tools take from [psutil] and [os]: the calls they make, each
    a computation on the world that returns or raises, and
    [round(n / (1024**3), digits)] on the byte counts [psutil] reports.
    A signal that reaches the server's own process ([psutil.Process(None)]
    is the current process) ends the interpreter inside the call, which
    then neither returns nor raises: the class has no such call. *)
Class Psutil {RT : PyRuntime} : Type := {
  Process : Type;
  (** [psutil.Process(pid)]. *)
  psutil_Process : value -> World -> outcome Process * World;
  (** [process.name()], a [str]. *)
  Process_name : Process -> World -> outcome string * World;
  (** [process.kill()]. *)
  Process_kill : Process -> World -> outcome unit * World;
  (** [process.terminate()]. *)
  Process_terminate : Process -> World -> outcome unit * World;
  psutil_disk_partitions : World -> outcome (list sdiskpart) * World;
  psutil_disk_usage : string -> World -> outcome sdiskusage * World;
  round_gb : nat -> Z -> value;
  (** [psutil.cpu_percent(interval=interval, percpu=percpu)]. *)
  psutil_cpu_percent : value -> bool -> World -> outcome value * World;
  (** [psutil.cpu_freq()]: a reading, or [None]. *)
  psutil_cpu_freq : World -> outcome (option scpufreq) * World;
  (** [os.getloadavg], where [os] has it. *)
  os_getloadavg : option (World -> outcome value * World)
}.

Section Tools.

Context {RT : PyRuntime} {PS : Psutil}.

#[local] Notation "x <- m ;; k" := (bind m (fun x => k))
  (at level 61, m at next level, right associativity).

(** The [try] block of [kill_process]. *)
Definition kill_process_try (pid force : value) : M value :=
  process <- psutil_Process pid ;;
  process_name <- Process_name process ;;
  _ <- (if py_truthy force then Process_kill process else Process_terminate process) ;;
  ret (VDict [ ("success", VBool true);
               ("pid", pid);
               ("name", VStr process_name);
               ("message",
                VStr ("Process " ++ py_str pid ++ " (" ++ process_name
                        ++ ") terminated successfully")) ]).

Definition kill_process (pid force : value) : M value :=
  fun w =>
    match kill_process_try pid force w with
    | (Raises e, w') =>
        if exception_is NoSuchProcess e then
          (Returns (VDict [ ("success", VBool false);
                            ("pid", pid);
                            ("error", VStr ("No process found with PID " ++ py_str pid)) ]),
           w')
        else if exception_is AccessDenied e then
          (Returns (VDict [ ("success", VBool false);
                            ("pid", pid);
                            ("error",
                             VStr ("Access denied to terminate process " ++ py_str pid)) ]),
           w')
        else
          match e with
          | Exc _ msg =>
              (Returns (VDict [ ("success", VBool false);
                                ("pid", pid);
                                ("error", VStr msg) ]),
               w')
          | BaseExc _ _ => (Raises e, w')
          end
    | r => r
    end.

(** [kill_process(pid: int, force: bool = False)] as [@mcp.tool] sees it. *)
Definition kill_process_tool : pyfunc := {|
  fn_name := "kill_process";
  fn_doc := Some "Terminate a process by its PID.";
  fn_params :=
    [ {| p_name := "pid"; p_annotation := Some (AClass Tint); p_default := None |};
      {| p_name := "force"; p_annotation := Some (AClass Tbool);
         p_default := Some (VBool false) |} ];
  fn_body := fun bound =>
    kill_process (dict_get_default bound "pid" VNone) (dict_get_default bound "force" VNone)
|}.

(** The entry of [get_disk_usage] for a partition whose usage was read. *)
Definition disk_entry (partition : sdiskpart) (usage : sdiskusage) : value :=
  VDict [ ("device", VStr (part_device partition));
          ("mountpoint", VStr (part_mountpoint partition));
          ("filesystem", VStr (part_fstype partition));
          ("total", VInt (usage_total usage));
          ("used", VInt (usage_used usage));
          ("free", VInt (usage_free usage));
          ("percent", usage_percent usage);
          ("total_gb", round_gb 2 (usage_total usage));
          ("free_gb", round_gb 2 (usage_free usage)) ].

(** The entry for a partition whose usage may not be read. *)
Definition disk_error_entry (partition : sdiskpart) : value :=
  VDict [ ("device", VStr (part_device partition));
          ("mountpoint", VStr (part_mountpoint partition));
          ("error", VStr "Permission denied") ].

(** The loop of [get_disk_usage] over the partitions. *)
Fixpoint disk_loop (partitions : list sdiskpart) (disk_info : list value) : M (list value) :=
  match partitions with
  | [] => ret disk_info
  | partition :: rest =>
      fun w =>
        match psutil_disk_usage (part_mountpoint partition) w with
        | (Returns usage, w') => disk_loop rest (disk_info ++ [disk_entry partition usage]) w'
        | (Raises e, w') =>
            if exception_is PermissionError e then
              disk_loop rest (disk_info ++ [disk_error_entry partition]) w'
            else (Raises e, w')
        end
  end.

Definition get_disk_usage : M value :=
  disk_partitions <- psutil_disk_partitions ;;
  disk_info <- disk_loop disk_partitions [] ;;
  ret (VList disk_info).

(** [get_disk_usage()] as [@mcp.tool] sees it. *)
Definition get_disk_usage_tool : pyfunc := {|
  fn_name := "get_disk_usage";
  fn_doc := Some "Get disk usage information for all mounted partitions.";
  fn_params := [];
  fn_body := fun _ => get_disk_usage
|}.

(** [{"current": cpu_freq.current if cpu_freq else None, ...}]. *)
Definition frequency_of (cpu_freq : option scpufreq) : value :=
  VDict [ ("current", match cpu_freq with Some f => freq_current f | None => VNone end);
          ("min", match cpu_freq with Some f => freq_min f | None => VNone end);
          ("max", match cpu_freq with Some f => freq_max f | None => VNone end) ].

(** The [freq_info] of the [except] branch of [get_cpu_usage]. *)
Definition frequency_unavailable : value :=
  VDict [ ("current", VNone); ("min", VNone); ("max", VNone);
          ("note", VStr "CPU frequency not available in this environment") ].

(** [os.getloadavg() if hasattr(os, 'getloadavg') else None]. *)
Definition load_average : M value :=
  match os_getloadavg with
  | Some getloadavg => getloadavg
  | None => ret VNone
  end.

(** What both versions of [get_cpu_usage] do once [freq_info] is known. *)
Definition cpu_usage_result (interval cpu_percent freq_info : value) : M value :=
  total_percent <- psutil_cpu_percent interval false ;;
  load <- load_average ;;
  ret (VDict [ ("total_percent", total_percent);
               ("per_cpu_percent", cpu_percent);
               ("frequency", freq_info);
               ("load_average", load) ]).

(** [get_cpu_usage] of [server_standalone.py]: the frequency is read in a
    [try] with [except (FileNotFoundError, PermissionError)]. *)
Definition get_cpu_usage (interval : value) : M value :=
  cpu_percent <- psutil_cpu_percent interval true ;;
  freq_info <- (fun w =>
                  match psutil_cpu_freq w with
                  | (Returns cpu_freq, w') => (Returns (frequency_of cpu_freq), w')
                  | (Raises e, w') =>
                      if exception_is (FileNotFoundError ++ PermissionError) e
                      then (Returns frequency_unavailable, w')
                      else (Raises e, w')
                  end) ;;
  cpu_usage_result interval cpu_percent freq_info.

(** [get_cpu_usage] of [server.py]: the frequency is read with no [try]. *)
Definition get_cpu_usage_fastmcp (interval : value) : M value :=
  cpu_percent <- psutil_cpu_percent interval true ;;
  cpu_freq <- psutil_cpu_freq ;;
  cpu_usage_result interval cpu_percent (frequency_of cpu_freq).

(** The entry stands for the partition: it carries its device and its
    mount point. *)
Definition entry_of_partition (partition : sdiskpart) (entry : value) : Prop :=
  exists d,
    entry = VDict d /\
    dict_get d "device" = Some (VStr (part_device partition)) /\
    dict_get d "mountpoint" = Some (VStr (part_mountpoint partition)).

End Tools.

(* ================================================================== *)
(** ** A second runtime, with processes and disks, to run the tools on *)

Module Demo2.

(** A request object with an id, a method and parameters. *)
Definition request (id : Z) (method : string) (params : dict value) : dict value :=
  [ ("jsonrpc", VStr "2.0"); ("id", VInt id); ("method", VStr method);
    ("params", VDict params) ].

Definition do_initialize : dict value := request 1 "initialize" [].

Definition list_tools : dict value := request 2 "tools/list" [].

Definition read_clock : dict value :=
  request 3 "resources/read" [("uri", VStr "system://clock")].

Definition call_quit : dict value := request 4 "tools/call" [("name", VStr "quit")].

Definition call_now : dict value := request 5 "tools/call" [("name", VStr "now")].

Definition call_kill (arguments : dict value) : dict value :=
  request 6 "tools/call" [("name", VStr "kill_process"); ("arguments", VDict arguments)].

(** The requests the parser of the examples knows, each by the line
    [Demo.encode] prints for it. *)
Definition known_requests : list (dict value) :=
  [ do_initialize; list_tools; read_clock; call_quit; call_now;
    call_kill [("pid", VInt 99)]; call_kill [("bogus", VInt 1)] ].

Definition loads (line : string) : value + string :=
  match find (fun fields => String.eqb line (Demo.encode (VDict fields))) known_requests with
  | Some fields => inl (VDict fields)
  | None =>
      if String.eqb line "[]" then inl (VList [])
      else if String.eqb line "7" then inl (VInt 7)
      else inr "Expecting value: line 1 column 1 (char 0)"
  end.

(** The world is the list of the ids of the running processes. *)
#[export] Instance runtime : PyRuntime := {|
  World := list Z;
  json_loads := loads;
  json_loads_decoded :=
    ltac:(intros line v; unfold loads;
          match goal with
          | |- context [find ?f known_requests] =>
              destruct (find f known_requests) as [fields |] eqn:F
          end;
          [ intros H; injection H as <-;
            apply find_some in F; destruct F as [F _]; cbn in F;
            repeat (destruct F as [<- | F]; [reflexivity |]); contradiction
          | repeat (match goal with
                    | |- context [if ?b then _ else _] => destruct b
                    end);
            intros H; inversion H; reflexivity ]);
  json_encode := fun _ v => Demo.encode v;
  py_repr := Demo.encode;
  interp_msg := fun e =>
    match e with
    | NoAttribute _ attr => ("object has no attribute " ++ attr)%string
    | Unhashable _ => "unhashable type"
    | NotAMapping fname _ => (fname ++ "() argument after ** must be a mapping")%string
    | UnexpectedKeyword fname key =>
        (fname ++ "() got an unexpected keyword argument " ++ key)%string
    | MissingArguments fname names =>
        (fname ++ "() missing required arguments: " ++ String.concat ", " names)%string
    | NotSerializable cls => ("Object of type " ++ cls ++ " is not JSON serializable")%string
    | NoSuchKey key => Demo.encode key
    | IndexOutOfRange => "list index out of range"
    end
|}.

Definition without (p : Z) (w : list Z) : list Z := filter (fun q => negb (Z.eqb q p)) w.

(** Process 1 may not be terminated; the disk at [/mnt] may not be read;
    whole gigabytes stand for the rounded figure; the CPU frequency cannot
    be found, as in a container. *)
#[export] Instance psutil : Psutil := {|
  Process := Z;
  psutil_Process := fun pid w =>
    match pid with
    | VInt z =>
        if existsb (Z.eqb z) w then (Returns z, w)
        else (Raises (Exc "NoSuchProcess" "process PID not found"), w)
    | _ => (Raises (Exc "TypeError" "pid must be an integer"), w)
    end;
  Process_name := fun p w => (Returns ("proc" ++ Demo.decimal p)%string, w);
  Process_kill := fun p w => (Returns tt, without p w);
  Process_terminate := fun p w =>
    if Z.eqb p 1 then (Raises (Exc "AccessDenied" "(pid=1)"), w)
    else (Returns tt, without p w);
  psutil_disk_partitions := fun w =>
    (Returns [ {| part_device := "/dev/sda1"; part_mountpoint := "/"; part_fstype := "ext4" |};
               {| part_device := "/dev/sdb1"; part_mountpoint := "/mnt";
                  part_fstype := "ext4" |} ], w);
  psutil_disk_usage := fun mountpoint w =>
    if String.eqb mountpoint "/mnt" then
      (Raises (Exc "PermissionError" "[Errno 13] Permission denied"), w)
    else
      (Returns {| usage_total := 2147483648; usage_used := 1073741824;
                  usage_free := 1073741824; usage_percent := VInt 50 |}, w);
  round_gb := fun _ n => VInt (n / 1073741824);
  psutil_cpu_percent := fun interval percpu w =>
    match interval with
    | VInt _ | VFloat _ =>
        (Returns (if percpu then VList [VInt 10; VInt 30] else VInt 20), w)
    | _ => (Raises (Exc "TypeError" "interval must be a number"), w)
    end;
  psutil_cpu_freq := fun w =>
    (Raises (Exc "FileNotFoundError" "can't find current frequency file"), w);
  os_getloadavg := Some (fun w => (Returns (VList [VInt 1; VInt 1; VInt 1]), w))
|}.

(** [def now(): return datetime.now()]: no JSON value. *)
Definition now : pyfunc := {|
  fn_name := "now";
  fn_doc := Some "The time.";
  fn_params := [];
  fn_body := fun _ w => (Returns (VObject "datetime"), w)
|}.

(** A first version of [now], registered before it under the same name. *)
Definition now_before : pyfunc := {|
  fn_name := "now";
  fn_doc := None;
  fn_params := [];
  fn_body := fun _ w => (Returns (VStr "noon"), w)
|}.

(** [def clock(): return datetime.now()], registered as a resource. *)
Definition clock : pyfunc := {|
  fn_name := "clock";
  fn_doc := None;
  fn_params := [];
  fn_body := fun _ w => (Returns (VObject "datetime"), w)
|}.

(** [def quit(): sys.exit(0)]. *)
Definition quit : pyfunc := {|
  fn_name := "quit";
  fn_doc := None;
  fn_params := [];
  fn_body := fun _ w => (Raises (BaseExc "SystemExit" "0"), w)
|}.

Definition regs : list registration :=
  [ RegisterTool kill_process_tool; RegisterTool now_before;
    RegisterTool get_disk_usage_tool; RegisterTool now;
    RegisterResource "system://clock" clock ].

Definition server : MCPServer := registered "SystemMonitor" regs.

Definition server_with_quit : MCPServer := tool server quit.

End Demo2.

(* ================================================================== *)
(** ** Proof steps *)

(** Case analysis on the scrutinee of a [match] in a hypothesis. *)
Ltac break_match_in H :=
  match type of H with
  | context [match ?x with _ => _ end] => destruct x eqn:?
  end.

(** Case analysis on an innermost scrutinee of a hypothesis. *)
Ltac break_inner_in H :=
  match type of H with
  | context [match ?x with _ => _ end] =>
      lazymatch x with
      | context [match _ with _ => _ end] => fail
      | _ => destruct x eqn:?
      end
  end.

(** Case analysis on the condition of an [if] in a hypothesis. *)
Ltac break_if_in H :=
  match type of H with
  | context [if ?b then _ else _] => destruct b eqn:?
  end.

(* ================================================================== *)
(** ** Dictionaries *)

Lemma dict_get_set_same {V : Type} (d : dict V) (key : string) (v : V) :
  dict_get (dict_set d key v) key = Some v.
Proof.
  induction d as [| [k x] d IH]; simpl.
  - now rewrite String.eqb_refl.
  - destruct (String.eqb k key) eqn:E; simpl; rewrite E; [reflexivity | exact IH].
Qed.

Lemma dict_get_set_other {V : Type} (d : dict V) (key key' : string) (v : V) :
  key <> key' -> dict_get (dict_set d key v) key' = dict_get d key'.
Proof.
  intros Hne. induction d as [| [k x] d IH]; simpl.
  - destruct (String.eqb key key') eqn:E; [| reflexivity].
    apply String.eqb_eq in E. contradiction.
  - destruct (String.eqb k key) eqn:E; simpl.
    + apply String.eqb_eq in E. subst k.
      destruct (String.eqb key key') eqn:E'; [| reflexivity].
      apply String.eqb_eq in E'. contradiction.
    + destruct (String.eqb k key'); [reflexivity | exact IH].
Qed.

(** Writing the same key into two dictionaries with the same keys leaves
    them with the same keys, whatever the values. *)
Lemma dict_keys_set {A B : Type} (d1 : dict A) (d2 : dict B) (key : string) (a : A) (b : B) :
  dict_keys d1 = dict_keys d2 ->
  dict_keys (dict_set d1 key a) = dict_keys (dict_set d2 key b).
Proof.
  revert d2. induction d1 as [| [k1 x1] d1 IH]; intros [| [k2 x2] d2] H; simpl in *;
    try discriminate; [reflexivity |].
  injection H as Hk Hrest. subst k2.
  destruct (String.eqb k1 key); simpl; f_equal; auto.
Qed.

Lemma dict_contains_keys {V : Type} (d : dict V) (key : string) :
  dict_contains d key = true <-> In key (dict_keys d).
Proof.
  unfold dict_contains. induction d as [| [k x] d IH]; simpl.
  - split; [discriminate | tauto].
  - destruct (String.eqb k key) eqn:E.
    + apply String.eqb_eq in E. split; auto.
    + apply String.eqb_neq in E. rewrite IH. split; [auto | intros [H | H]; [contradiction | exact H]].
Qed.

Lemma dict_contains_get {V : Type} (d : dict V) (key : string) :
  dict_contains d key = true -> exists v, dict_get d key = Some v.
Proof.
  unfold dict_contains. destruct (dict_get d key) as [v |]; [eauto | discriminate].
Qed.

(* ================================================================== *)
(** ** Schema synthesis *)

Lemma schema_loop_required (params : list param) (properties : dict value) (required : list string) :
  snd (fold_left schema_step params (properties, required)) =
  required ++ map p_name (filter (fun p => negb (is_receiver p) && lacks_default p) params).
Proof.
  revert properties required.
  induction params as [| p params IH]; intros properties required; simpl.
  - now rewrite app_nil_r.
  - unfold is_receiver, lacks_default at 1.
    destruct (String.eqb (p_name p) "self"); simpl.
    + apply IH.
    + destruct (p_default p); simpl.
      * apply IH.
      * rewrite IH, <- app_assoc. reflexivity.
Qed.


Section Signatures.

Context {RT : PyRuntime}.

(** On the parameters the registries hold, the loop of [Inspect] is the
    loop of [schema_step], and it returns. *)
Lemma schema_loop_of_params (params : list param) (properties : dict value)
    (required : list string) :
  Inspect.schema_loop (map Inspect.of_param params) properties required =
  Returns (fold_left schema_step params (properties, required)).
Proof.
  revert properties required.
  induction params as [| p params IH]; intros properties required; [reflexivity |].
  cbn [map Inspect.schema_loop fold_left].
  unfold schema_step at 2. cbn [Inspect.of_param Inspect.par_name Inspect.par_annotation
                                  Inspect.par_default].
  destruct (String.eqb (p_name p) "self"); [apply IH |].
  unfold param_type.
  destruct (p_annotation p) as [[c | origin args | text] |], (p_default p) as [v |];
    cbn; apply IH.
Qed.

Lemma get_schema_of_params (func : pyfunc) :
  Inspect._get_schema (map Inspect.of_param (fn_params func)) = Returns (_get_schema func).
Proof.
  unfold Inspect._get_schema, _get_schema, schema_of_params, schema_loop.
  rewrite schema_loop_of_params. unfold dict in *.
  now destruct (fold_left _ _ _) as [properties required].
Qed.

(** On those parameters, Python accepts a call exactly when
    [bind_arguments] returns. *)
Lemma binds_of_params (func : pyfunc) (kwargs : dict value) :
  Inspect.binds (map Inspect.of_param (fn_params func)) kwargs = true <->
  exists bound, bind_arguments func kwargs = Returns bound.
Proof.
  unfold Inspect.binds, bind_arguments.
  assert (Hkey : forall key,
            Inspect.keyword_accepted (map Inspect.of_param (fn_params func)) key =
            is_param (fn_params func) key).
  { intros key. unfold Inspect.keyword_accepted, Inspect.has_var_keyword, is_param.
    assert (Hvar : existsb (fun p => match Inspect.par_kind p with
                                     | Inspect.VAR_KEYWORD => true
                                     | _ => false
                                     end) (map Inspect.of_param (fn_params func)) = false)
      by (induction (fn_params func) as [| p ps IH]; [reflexivity | exact IH]).
    rewrite Hvar. cbn [orb].
    induction (fn_params func) as [| p ps IH]; [reflexivity |].
    cbn. now rewrite IH. }
  assert (Hsup : forall p, Inspect.is_supplied kwargs (Inspect.of_param p) =
                           negb (is_missing kwargs p)).
  { intros p. unfold Inspect.is_supplied, Inspect.has_default, is_missing. cbn.
    destruct (p_default p); [reflexivity | now rewrite negb_involutive]. }
  rewrite andb_true_iff, !forallb_forall. split.
  - intros [Hkeys Hparams].
    destruct (find _ (dict_keys kwargs)) as [key |] eqn:F.
    + apply find_some in F. destruct F as [Hin Hneg].
      specialize (Hkeys key Hin). rewrite Hkey in Hkeys. rewrite Hkeys in Hneg. discriminate.
    + destruct (filter (is_missing kwargs) (fn_params func)) as [| q qs] eqn:M; [eauto |].
      assert (Hq : In q (filter (is_missing kwargs) (fn_params func))) by (rewrite M; now left).
      apply filter_In in Hq. destruct Hq as [Hq Hmiss].
      specialize (Hparams (Inspect.of_param q) (in_map _ _ _ Hq)).
      rewrite Hsup, Hmiss in Hparams. discriminate.
  - intros [bound Hb].
    destruct (find _ (dict_keys kwargs)) as [key |] eqn:F; [discriminate |].
    destruct (filter (is_missing kwargs) (fn_params func)) as [| q qs] eqn:M; [| discriminate].
    split.
    + intros key Hin. rewrite Hkey.
      pose proof (find_none _ _ F key Hin) as Hn. now apply negb_false_iff in Hn.
    + intros q Hq. apply in_map_iff in Hq. destruct Hq as (p0 & <- & Hp0).
      rewrite Hsup. destruct (is_missing kwargs p0) eqn:E; [| reflexivity].
      assert (Hf : In p0 (filter (is_missing kwargs) (fn_params func)))
        by (apply filter_In; auto).
      rewrite M in Hf. contradiction.
Qed.

(** Whenever the loop returns, it has added to [required], in order, the
    parameters other than [self] whose default passed the test. *)
Lemma inspect_schema_loop_required (parameters : list Inspect.parameter)
    (properties properties' : dict value) (required required' : list string) :
  Inspect.schema_loop parameters properties required = Returns (properties', required') ->
  required' =
  required ++ map Inspect.par_name (filter Inspect.equals_empty_default parameters).
Proof.
  revert properties required.
  induction parameters as [| p ps IH]; intros properties required H.
  - injection H as <- <-. cbn. now rewrite app_nil_r.
  - cbn [Inspect.schema_loop] in H. cbn [filter]. unfold Inspect.equals_empty_default at 1.
    destruct (String.eqb (Inspect.par_name p) "self"); cbn [negb andb]; [eauto |].
    destruct (Inspect._python_type_to_json_type _) as [json_type | e]; [| discriminate].
    destruct (Inspect.default_is_empty (Inspect.par_default p)) as [[|] | e];
      [| eauto | discriminate].
    apply IH in H. rewrite H. cbn [map]. now rewrite <- app_assoc.
Qed.

Lemma inspect_schema_required (parameters : list Inspect.parameter) (schema : value) :
  Inspect._get_schema parameters = Returns schema ->
  schema_required schema =
  map Inspect.par_name (filter Inspect.equals_empty_default parameters).
Proof.
  unfold Inspect._get_schema.
  destruct (Inspect.schema_loop parameters [] []) as [[properties required] | e] eqn:E;
    [| discriminate].
  intros H. injection H as <-. apply inspect_schema_loop_required in E. cbn in E. subst.
  unfold schema_required. cbn [dict_get String.eqb Ascii.eqb Bool.eqb].
  induction (map Inspect.par_name _) as [| n ns IH]; cbn; [reflexivity | now rewrite IH].
Qed.


(** C7. [def f(x=unittest.mock.ANY)]: the parameter [x] has a default, and
    the call [f()] binds; yet [ANY == inspect.Parameter.empty] holds, and
    the schema synthesized for [f] lists [x] in [required]. *)
Theorem default_equal_to_everything_is_required :
  Forall (fun p => Inspect.has_default p = true) Inspect.any_default /\
  Inspect.binds Inspect.any_default [] = true /\
  Inspect._get_schema Inspect.any_default =
    Returns (VDict [ ("type", VStr "object");
                     ("properties", VDict [("x", VDict [("type", VStr "string")])]);
                     ("required", VList [VStr "x"]) ]).
Proof.
  split; [repeat constructor |]. split; reflexivity.
Qed.

(** C8. [def f(x: [int])]: the annotation is a list, which has no hash;
    [type_map.get] raises [TypeError] on it, and so does the synthesis of
    the schema of [f], inside [tool]: no type name is given, ["string"]
    or another. *)
Theorem unhashable_annotation_raises :
  Inspect._python_type_to_json_type (Inspect.annotation_value Inspect.list_of_int) =
    Raises (Exc "TypeError" (interp_msg (Unhashable Inspect.list_of_int))) /\
  Inspect._get_schema Inspect.list_annotation =
    Raises (Exc "TypeError" (interp_msg (Unhashable Inspect.list_of_int))) /\
  forall json_type,
    Inspect._python_type_to_json_type (Inspect.annotation_value Inspect.list_of_int) <>
    Returns json_type.
Proof.
  split; [reflexivity |]. split; [reflexivity | discriminate].
Qed.



(** X12. The schema is not enforced, yet it tells what a call needs.  For
    a signature whose parameters can all be named by a keyword
    (positional-or-keyword or keyword-only, no [*args], no [**kwargs], none
    positional-only), none of them named [self], with defaults of ordinary
    equality: keyword arguments that all name parameters bind if and only
    if they give a value to every name the schema lists as [required]. *)
Theorem required_is_what_binding_needs (parameters : list Inspect.parameter)
    (kwargs : dict value) (schema : value) :
  Forall (fun p => Inspect.takes_keyword p = true) parameters ->
  Forall (fun p => Inspect.par_name p <> "self") parameters ->
  Forall Inspect.ordinary_default parameters ->
  Inspect._get_schema parameters = Returns schema ->
  Forall (fun key => existsb (fun p => String.eqb (Inspect.par_name p) key) parameters = true)
         (dict_keys kwargs) ->
  (Inspect.binds parameters kwargs = true <->
   Forall (fun n => dict_contains kwargs n = true) (schema_required schema)).
Proof.
  intros Hkw Hself Hdef Hschema Hkeys.
  rewrite (inspect_schema_required _ _ Hschema).
  unfold Inspect.binds.
  assert (Haccepted : forallb (Inspect.keyword_accepted parameters) (dict_keys kwargs) = true).
  { apply forallb_forall. intros key Hin. rewrite Forall_forall in Hkeys.
    specialize (Hkeys key Hin). apply existsb_exists in Hkeys. destruct Hkeys as (p & Hp & Hn).
    unfold Inspect.keyword_accepted. apply orb_true_iff. right.
    apply existsb_exists. exists p. split; [exact Hp |].
    rewrite Forall_forall in Hkw. now rewrite (Hkw p Hp), Hn. }
  rewrite Haccepted. cbn [andb].
  rewrite forallb_forall, Forall_forall.
  rewrite Forall_forall in Hkw, Hself, Hdef.
  assert (Hstep : forall p, In p parameters ->
            Inspect.is_supplied kwargs p =
            negb (Inspect.equals_empty_default p) || dict_contains kwargs (Inspect.par_name p)).
  { intros p Hp. specialize (Hkw p Hp). specialize (Hself p Hp). specialize (Hdef p Hp).
    unfold Inspect.is_supplied, Inspect.equals_empty_default, Inspect.has_default,
      Inspect.takes_keyword, Inspect.ordinary_default in *.
    apply String.eqb_neq in Hself. rewrite Hself. cbn [negb andb].
    destruct (Inspect.par_kind p); try discriminate;
      (destruct (Inspect.par_default p) as [| v | cls r];
         [reflexivity | reflexivity | now contradiction (Hdef cls r)]). }
  split.
  - intros Hall n Hn. apply in_map_iff in Hn. destruct Hn as (p & <- & Hp).
    apply filter_In in Hp. destruct Hp as [Hp Hempty].
    specialize (Hall p Hp). rewrite (Hstep p Hp), Hempty in Hall. exact Hall.
  - intros Hall p Hp. rewrite (Hstep p Hp).
    destruct (Inspect.equals_empty_default p) eqn:E; [| reflexivity].
    cbn [negb orb]. apply Hall. apply in_map. apply filter_In. auto.
Qed.

(** X24. A [*args] or [**kwargs] parameter has no default: whenever
    schema synthesis returns, it lists the parameter in [required],
    although every call leaves it supplied, with or without keywords. *)
Theorem variadic_parameter_is_required (before after : list Inspect.parameter)
    (p : Inspect.parameter) (schema : value) :
  Inspect.par_kind p = Inspect.VAR_POSITIONAL \/ Inspect.par_kind p = Inspect.VAR_KEYWORD ->
  Inspect.par_default p = Inspect.empty_default ->
  Inspect.par_name p <> "self" ->
  Inspect._get_schema (before ++ p :: after) = Returns schema ->
  In (Inspect.par_name p) (schema_required schema) /\
  forall kwargs, Inspect.is_supplied kwargs p = true.
Proof.
  intros Hkind Hdefault Hself Hschema. split.
  - rewrite (inspect_schema_required _ _ Hschema).
    apply in_map. apply filter_In. split; [apply in_or_app; right; now left |].
    unfold Inspect.equals_empty_default. rewrite Hdefault.
    apply String.eqb_neq in Hself. now rewrite Hself.
  - intros kwargs. unfold Inspect.is_supplied. now destruct Hkind as [-> | ->].
Qed.

End Signatures.

(* ================================================================== *)
(** ** Text: partition and split *)

Lemma prefix_length (a b : string) :
  String.prefix a b = true -> String.length a <= String.length b.
Proof.
  revert b. induction a as [| c a IH]; intros b H; [simpl; lia |].
  destruct b as [| c' b]; simpl in *; [discriminate |].
  destruct (ascii_dec c c'); [| discriminate].
  apply IH in H. lia.
Qed.

Lemma prefix_drop (a b : string) :
  String.prefix a b = true -> b = (a ++ str_drop (String.length a) b)%string.
Proof.
  revert b. induction a as [| c a IH]; intros b H.
  - now destruct b.
  - destruct b as [| c' b]; simpl in *; [discriminate |].
    destruct (ascii_dec c c'); [| discriminate].
    subst c'. f_equal. now apply IH.
Qed.

Lemma str_drop_length (n : nat) (s : string) :
  String.length (str_drop n s) = String.length s - n.
Proof.
  revert s. induction n as [| n IH]; intros s; simpl.
  - lia.
  - destruct s as [| c s]; simpl; [reflexivity | apply IH].
Qed.

(** [str_partition] cuts [s] around an occurrence of [sep]. *)
Lemma str_partition_spec (sep s before after : string) :
  str_partition sep s = Some (before, after) ->
  s = (before ++ sep ++ after)%string.
Proof.
  revert before after. induction s as [| c s IH]; intros before after H.
  - cbn [str_partition] in H. destruct (String.prefix sep "") eqn:P; [| discriminate].
    injection H as <- <-. simpl. now apply prefix_drop.
  - cbn [str_partition] in H. destruct (String.prefix sep (String c s)) eqn:P.
    + injection H as <- <-. simpl. now apply prefix_drop.
    + destruct (str_partition sep s) as [[b a] |]; [| discriminate].
      injection H as <- <-. simpl. f_equal. now apply IH.
Qed.

Lemma append_length (a b : string) :
  String.length (a ++ b)%string = String.length a + String.length b.
Proof.
  induction a as [| c a IH]; simpl; [reflexivity | now rewrite IH].
Qed.

Lemma str_partition_length (sep s before after : string) :
  str_partition sep s = Some (before, after) ->
  String.length s = String.length before + String.length sep + String.length after.
Proof.
  intros H. apply str_partition_spec in H. subst s.
  rewrite !append_length. lia.
Qed.

(** No occurrence of [sep] starts inside the text before the cut. *)
Lemma str_partition_first (sep s before after : string) :
  str_partition sep s = Some (before, after) ->
  forall k, k < String.length before -> String.prefix sep (str_drop k s) = false.
Proof.
  revert before after. induction s as [| c s IH]; intros before after H k Hk.
  - cbn [str_partition] in H. destruct (String.prefix sep "") eqn:P; [| discriminate].
    injection H as <- <-. simpl in Hk. lia.
  - cbn [str_partition] in H. destruct (String.prefix sep (String c s)) eqn:P.
    + injection H as <- <-. simpl in Hk. lia.
    + destruct (str_partition sep s) as [[b a] |] eqn:E; [| discriminate].
      injection H as <- <-. destruct k as [| k]; simpl.
      * exact P.
      * eapply IH; [reflexivity |]. simpl in Hk. lia.
Qed.

(** Where [sep] has no occurrence, no suffix of [s] starts with it. *)
Lemma str_partition_none (sep s : string) :
  str_partition sep s = None ->
  forall k, String.prefix sep (str_drop k s) = false.
Proof.
  induction s as [| c s IH]; intros H k.
  - cbn [str_partition] in H. destruct (String.prefix sep "") eqn:P; [discriminate |].
    destruct k; exact P.
  - cbn [str_partition] in H. destruct (String.prefix sep (String c s)) eqn:P; [discriminate |].
    destruct (str_partition sep s) as [[b a] |] eqn:E; [discriminate |].
    destruct k as [| k]; simpl; [exact P | now apply IH].
Qed.

(** The fuel [str_split] starts with is never used up: any larger amount
    gives the same pieces. *)
Lemma str_split_fuel_enough (sep s : string) (fuel : nat) :
  sep <> EmptyString -> String.length s <= fuel ->
  str_split_fuel fuel sep s = str_split sep s.
Proof.
  intros Hsep. unfold str_split.
  assert (Hgen : forall n m s', String.length s' <= n -> String.length s' <= m ->
                   str_split_fuel n sep s' = str_split_fuel m sep s').
  { induction n as [| n IH]; intros m s' Hn Hm.
    - destruct s'; [| simpl in Hn; lia].
      destruct m; cbn [str_split_fuel]; [reflexivity |].
      destruct (str_partition sep "") as [[b a] |] eqn:E; [| reflexivity].
      apply str_partition_length in E. destruct sep; [congruence | simpl in E; lia].
    - destruct m as [| m].
      + destruct s'; [| simpl in Hm; lia]. cbn [str_split_fuel].
        destruct (str_partition sep "") as [[b a] |] eqn:E; [| reflexivity].
        apply str_partition_length in E. destruct sep; [congruence | simpl in E; lia].
      + cbn [str_split_fuel].
        destruct (str_partition sep s') as [[b a] |] eqn:E; [| reflexivity].
        f_equal. apply str_partition_length in E.
        assert (0 < String.length sep) by (destruct sep; [congruence | simpl; lia]).
        apply IH; lia. }
  intros Hlen. apply Hgen; [exact Hlen | lia].
Qed.

Section Properties.

Context {RT : PyRuntime}.

#[local] Notation "x <- m ;; k" := (bind m (fun x => k))
  (at level 61, m at next level, right associativity).

(** [uri.split("://")[1]] is always there when ["://" in uri]: the name of
    a resource is computed without an [IndexError]. *)
Lemma resource_name_segment (uri : string) :
  resource_name uri = Returns (first_path_segment uri).
Proof.
  unfold resource_name, first_path_segment, str_contains, str_split.
  destruct (str_partition "://" uri) as [[before after] |] eqn:E; [| reflexivity].
  pose proof (str_partition_length _ _ _ _ E) as Hlen. simpl in Hlen.
  destruct (String.length uri) as [| [| n]] eqn:L; [lia | lia |].
  cbn [str_split_fuel]. rewrite E. cbn [nth_error].
  destruct (str_partition "://" after) as [[segment rest] |]; reflexivity.
Qed.

Lemma resources_loop_descriptors (uris : list string) (acc : list value) :
  resources_loop uris acc =
  Returns (acc ++ map (fun uri => resource_descriptor uri (first_path_segment uri)) uris).
Proof.
  revert acc. induction uris as [| uri uris IH]; intros acc; simpl.
  - now rewrite app_nil_r.
  - rewrite resource_name_segment, IH, <- app_assoc. reflexivity.
Qed.

(** X23. [resources/list] reports one descriptor per registered
    URI, in registration order: its [uri] is the registration key, its
    [mimeType] is ["text/plain"], and its [name] is the URI when it has no
    ["://"], and otherwise the text between its first ["://"] and the next
    ["://"] or the end; that is the whole text after the first ["://"]
    when that text holds no further ["://"].  A registered URI is a key of
    the registry. *)
Theorem resources_list_descriptors (self : MCPServer) (request_id : value) (w : World) :
  _handle_resources_list self request_id w =
    (Returns
       (result_response request_id
          (VDict [("resources",
                   VList (map (fun uri => resource_descriptor uri (first_path_segment uri))
                              (dict_keys (resources self))))])),
     w) /\
  (forall uri, str_contains "://" uri = false -> first_path_segment uri = uri) /\
  (forall uri, str_contains "://" (path_after_separator uri) = false ->
               first_path_segment uri = path_after_separator uri) /\
  (forall uri func, In uri (dict_keys (resources (resource self uri func)))).
Proof.
  split; [| split; [| split]].
  - unfold _handle_resources_list, bind, lift, ret.
    rewrite resources_loop_descriptors. reflexivity.
  - intros uri. unfold str_contains, first_path_segment.
    destruct (str_partition "://" uri) as [[b a] |]; [discriminate | reflexivity].
  - intros uri. unfold str_contains, first_path_segment, path_after_separator.
    destruct (str_partition "://" uri) as [[b a] |]; [| reflexivity].
    destruct (str_partition "://" a) as [[b' a'] |]; [discriminate | reflexivity].
  - intros uri func. apply dict_contains_keys. unfold dict_contains. simpl.
    now rewrite dict_get_set_same.
Qed.

(* ---------------------------------------------------------------- *)
(** *** Registration *)

Lemma fold_register_keys (regs : list registration) (self : MCPServer) :
  dict_keys (tools self) = dict_keys (tool_functions self) ->
  dict_keys (tools (fold_left register regs self)) =
  dict_keys (tool_functions (fold_left register regs self)).
Proof.
  revert self. induction regs as [| r regs IH]; intros self H; simpl; [exact H |].
  apply IH. destruct r as [func | uri func]; simpl; [| exact H].
  now apply dict_keys_set.
Qed.

Lemma fold_register_latest (regs : list registration) (self : MCPServer) (tool_name : string) :
  dict_get (tool_functions (fold_left register regs self)) tool_name =
  match latest_tool regs tool_name with
  | Some func => Some func
  | None => dict_get (tool_functions self) tool_name
  end.
Proof.
  revert self. induction regs as [| r regs IH]; intros self; simpl; [reflexivity |].
  rewrite IH. destruct (latest_tool regs tool_name) as [func |]; [reflexivity |].
  destruct r as [func | uri func]; simpl; [| reflexivity].
  destruct (String.eqb (fn_name func) tool_name) eqn:E.
  - apply String.eqb_eq in E. subst tool_name. apply dict_get_set_same.
  - apply String.eqb_neq in E. now apply dict_get_set_other.
Qed.

(** C10. After any sequence of registrations on a fresh server the
    descriptor map and the handler map have the same keys, in the same
    order; so whenever [tools/call] finds the name in the descriptor map,
    the handler lookup succeeds, with the function the latest registration
    of that name gave, and the call runs the body of that function on the
    bound arguments: what the body returns is serialized into the result
    envelope, what it raises leaves the handler, and arguments that do not
    bind raise before the body is entered. *)
Theorem registries_share_keys (server_name : string) (regs : list registration) :
  dict_keys (tools (registered server_name regs)) =
  dict_keys (tool_functions (registered server_name regs)) /\
  forall tool_name,
    dict_contains (tools (registered server_name regs)) tool_name = true ->
    exists func,
      latest_tool regs tool_name = Some func /\
      py_getitem (tool_functions (registered server_name regs)) (VStr tool_name) = Returns func /\
      forall params request_id kwargs w,
        dict_get_default params "name" VNone = VStr tool_name ->
        dict_get_default params "arguments" (VDict []) = VDict kwargs ->
        (forall bound,
           bind_arguments func kwargs = Returns bound ->
           _handle_tool_call (registered server_name regs) (VDict params) request_id w =
           match fn_body func bound w with
           | (Returns result, w') =>
               match json_dumps (Some 2%nat) result with
               | Returns text =>
                   (Returns
                      (result_response request_id
                         (VDict [("content",
                                  VList [VDict [("type", VStr "text"); ("text", VStr text)]])])),
                    w')
               | Raises e => (Raises e, w')
               end
           | (Raises e, w') => (Raises e, w')
           end) /\
        (forall e,
           bind_arguments func kwargs = Raises e ->
           _handle_tool_call (registered server_name regs) (VDict params) request_id w =
           (Raises e, w)).
Proof.
  assert (Hkeys : dict_keys (tools (registered server_name regs)) =
                  dict_keys (tool_functions (registered server_name regs)))
    by (apply fold_register_keys; reflexivity).
  split; [exact Hkeys |].
  intros tool_name Hin.
  assert (Hfun : dict_contains (tool_functions (registered server_name regs)) tool_name = true).
  { apply dict_contains_keys. rewrite <- Hkeys. now apply dict_contains_keys. }
  destruct (dict_contains_get _ _ Hfun) as [func Hget].
  exists func.
  assert (Hlatest : latest_tool regs tool_name = Some func).
  { unfold registered in Hget. rewrite fold_register_latest in Hget.
    destruct (latest_tool regs tool_name); [exact Hget | discriminate]. }
  split; [exact Hlatest |].
  split; [unfold py_getitem; simpl; now rewrite Hget |].
  intros params request_id kwargs w Hname Hargs.
  unfold _handle_tool_call, bind, lift, ret, py_get, py_not_in, py_getitem.
  rewrite Hname, Hargs. cbn [hashable is_key]. rewrite Hin, Hget. cbn [negb].
  unfold py_call_star, py_call, bind, lift.
  split.
  - intros bound Hbind. rewrite Hbind.
    destruct (fn_body func bound w) as [[result | e] w']; [| reflexivity].
    now destruct (json_dumps (Some 2%nat) result).
  - intros e Hbind. now rewrite Hbind.
Qed.

(* ---------------------------------------------------------------- *)
(** *** The dispatcher *)

(** On a [dict], the three reads that precede the [try] succeed. *)
Lemma handle_request_on_dict (self : MCPServer) (fields : dict value) (w : World) :
  handle_request self (VDict fields) w =
  try_except_Exception
    (route self (dict_get_default fields "method" VNone)
                (dict_get_default fields "params" (VDict []))
                (dict_get_default fields "id" VNone))
    (fun msg => ret (_error_response (dict_get_default fields "id" VNone) (-32603) msg)) w.
Proof. reflexivity. Qed.

Lemma py_getitem_values {V : Type} (d : dict V) (key : value) (v : V) :
  py_getitem d key = Returns v -> In v (dict_values d).
Proof.
  unfold py_getitem. destruct key; try discriminate. simpl.
  destruct (dict_get d s) eqn:E; [| discriminate].
  intros H. injection H as ->.
  induction d as [| [k x] d IH]; simpl in *; [discriminate |].
  destruct (String.eqb k s); [injection E as ->; now left | right; auto].
Qed.

(** Whatever [route] returns is an envelope around the request's id. *)
Lemma route_returns_envelope (self : MCPServer) (method params request_id resp : value) (w w' : World) :
  route self method params request_id w = (Returns resp, w') ->
  is_response_envelope request_id resp.
Proof.
  unfold route, _handle_tool_call, _handle_resources_list, _handle_resource_read,
    _handle_initialize, _handle_tools_list, bind, lift, ret.
  intros H.
  repeat (break_match_in H; try discriminate);
    injection H as <- <-;
    solve [ left; eexists; reflexivity | right; do 2 eexists; reflexivity ].
Qed.

Lemma py_call_base_exception (func : pyfunc) (kwargs : dict value) (w w' : World) (cls msg : string) :
  py_call func kwargs w = (Raises (BaseExc cls msg), w') ->
  exists bound w0, fn_body func bound w0 = (Raises (BaseExc cls msg), w').
Proof.
  unfold py_call, bind, lift.
  destruct (bind_arguments func kwargs) as [bound | e] eqn:E; intros H.
  - eauto.
  - injection H as -> ->. unfold bind_arguments, raised in E.
    repeat (break_match_in E; try discriminate).
Qed.

(** An exception that is not an [Exception] can only come out of the body
    of a registered function. *)
Lemma route_base_exception (self : MCPServer) (method params request_id : value)
    (w w' : World) (cls msg : string) :
  route self method params request_id w = (Raises (BaseExc cls msg), w') ->
  exists func bound w0,
    (In func (dict_values (tool_functions self)) \/ In func (dict_values (resources self))) /\
    fn_body func bound w0 = (Raises (BaseExc cls msg), w').
Proof.
  unfold route, ret. intros H.
  repeat (break_if_in H; try discriminate).
  - unfold _handle_tool_call, bind, lift, ret in H.
    destruct (py_get params "name" VNone) as [tool_name | e] eqn:E1;
      [| unfold py_get, raised in E1; destruct params; congruence].
    destruct (py_get params "arguments" (VDict [])) as [arguments | e] eqn:E2;
      [| unfold py_get, raised in E2; destruct params; congruence].
    destruct (py_not_in tool_name (tools self)) as [[|] | e] eqn:E3;
      [discriminate | | unfold py_not_in, raised in E3; destruct (hashable tool_name); congruence].
    destruct (py_getitem (tool_functions self) tool_name) as [func | e] eqn:E4;
      [| unfold py_getitem, raised in E4;
         destruct tool_name; simpl in E4; try congruence; destruct (dict_get _ _); congruence].
    destruct (py_call_star func arguments w) as [[result | e] w1] eqn:E5.
    + unfold json_dumps, raised in H. destruct (first_object result); discriminate.
    + injection H as -> ->. apply py_getitem_values in E4.
      unfold py_call_star, raise, raised in E5.
      destruct arguments; try discriminate.
      apply py_call_base_exception in E5. destruct E5 as (bound & w0 & Hb).
      exists func, bound, w0. auto.
  - unfold _handle_resources_list, bind, lift, ret in H.
    rewrite resources_loop_descriptors in H. discriminate.
  - unfold _handle_resource_read, bind, lift, ret in H.
    destruct (py_get params "uri" VNone) as [uri | e] eqn:E1;
      [| unfold py_get, raised in E1; destruct params; congruence].
    destruct (py_not_in uri (resources self)) as [[|] | e] eqn:E3;
      [discriminate | | unfold py_not_in, raised in E3; destruct (hashable uri); congruence].
    destruct (py_getitem (resources self) uri) as [func | e] eqn:E4;
      [| unfold py_getitem, raised in E4;
         destruct uri; simpl in E4; try congruence; destruct (dict_get _ _); congruence].
    destruct (py_call func [] w) as [[content | e] w1] eqn:E5; [discriminate |].
    injection H as -> ->. apply py_getitem_values in E4.
    apply py_call_base_exception in E5. destruct E5 as (bound & w0 & Hb).
    exists func, bound, w0. auto.
Qed.

(** A request that is a [dict] gets an envelope around its id, unless a
    registered function ends the call with an exception that is not an
    [Exception]. *)
Lemma handle_request_dict_cases (self : MCPServer) (fields : dict value) (w : World) :
  (exists resp w',
      handle_request self (VDict fields) w = (Returns resp, w') /\
      is_response_envelope (dict_get_default fields "id" VNone) resp) \/
  (exists cls msg w' func bound w0,
      handle_request self (VDict fields) w = (Raises (BaseExc cls msg), w') /\
      (In func (dict_values (tool_functions self)) \/ In func (dict_values (resources self))) /\
      fn_body func bound w0 = (Raises (BaseExc cls msg), w')).
Proof.
  rewrite handle_request_on_dict. unfold try_except_Exception.
  destruct (route self _ _ _ w) as [[resp | [cls msg | cls msg]] w'] eqn:E.
  - left. exists resp, w'. split; [reflexivity |]. eapply route_returns_envelope; eauto.
  - left. do 2 eexists. split; [reflexivity |]. right. do 2 eexists. reflexivity.
  - right. apply route_base_exception in E. destruct E as (func & bound & w0 & Hin & Hb).
    exists cls, msg, w', func, bound, w0. auto.
Qed.

(** What a decoded [dict] holds under a key is a JSON value. *)
Lemma first_object_field (fields : dict value) (key : string) (default : value) :
  first_object (VDict fields) = None ->
  first_object default = None ->
  first_object (dict_get_default fields key default) = None.
Proof.
  unfold dict_get_default. intros H Hd.
  induction fields as [| [k x] fields IH]; cbn [dict_get]; [exact Hd |].
  cbn [first_object] in H.
  destruct (first_object x) eqn:Ex; [discriminate |].
  destruct (String.eqb k key); [exact Ex | exact (IH H)].
Qed.

Lemma error_response_dumps (indent : option nat) (request_id : value) (code : Z) (message : string) :
  first_object request_id = None ->
  json_dumps indent (_error_response request_id code message) =
  Returns (json_encode indent (_error_response request_id code message)).
Proof.
  intros H. unfold json_dumps, _error_response. cbn [first_object]. now rewrite H.
Qed.

(** C2, as amended. For a request that is a JSON object, on a server whose
    registered functions fail only with instances of [Exception],
    [handle_request] returns a response envelope around the request's id:
    it raises nothing to its caller. *)
Theorem handle_request_returns_envelope (self : MCPServer) (fields : dict value) (w : World) :
  handlers_raise_only_exceptions self ->
  exists resp w',
    handle_request self (VDict fields) w = (Returns resp, w') /\
    is_response_envelope (dict_get_default fields "id" VNone) resp.
Proof.
  intros [Htools Hres].
  destruct (handle_request_dict_cases self fields w)
    as [Hok | (cls & msg & w' & func & bound & w0 & _ & Hin & Hbody)]; [exact Hok |].
  exfalso. rewrite Forall_forall in Htools, Hres.
  destruct Hin as [Hin | Hin]; [apply Htools in Hin | apply Hres in Hin];
    exact (Hin _ _ _ _ _ Hbody).
Qed.

(** C6. The response to a request that is a JSON object carries the
    request's id, [None] when the request has none, whether the envelope
    holds a result or an error of any code.  There is no response only
    where the body of a registered function ended the call with an
    exception that is not an [Exception]; on a server whose functions
    raise nothing but instances of [Exception], every such request has a
    response, and it carries the id. *)
Theorem response_echoes_request_id (self : MCPServer) (fields : dict value) (w : World) :
  ((exists resp w',
       handle_request self (VDict fields) w = (Returns resp, w') /\
       response_id resp = Some (dict_get_default fields "id" VNone)) \/
   (exists cls msg w' func bound w0,
       handle_request self (VDict fields) w = (Raises (BaseExc cls msg), w') /\
       (In func (dict_values (tool_functions self)) \/ In func (dict_values (resources self))) /\
       fn_body func bound w0 = (Raises (BaseExc cls msg), w'))) /\
  (handlers_raise_only_exceptions self ->
   exists resp w',
     handle_request self (VDict fields) w = (Returns resp, w') /\
     response_id resp = Some (dict_get_default fields "id" VNone)).
Proof.
  assert (Hid : forall resp,
            is_response_envelope (dict_get_default fields "id" VNone) resp ->
            response_id resp = Some (dict_get_default fields "id" VNone)).
  { intros resp [[result ->] | (code & message & ->)]; reflexivity. }
  destruct (handle_request_dict_cases self fields w)
    as [(resp & w' & Hrun & Henv) | (cls & msg & w' & func & bound & w0 & Hrun & Hin & Hbody)].
  - split; [left |]; eauto.
  - split; [right; exists cls, msg, w', func, bound, w0; auto |].
    intros [Htools Hres]. exfalso. rewrite Forall_forall in Htools, Hres.
    destruct Hin as [Hin | Hin]; [apply Htools in Hin | apply Hres in Hin];
      exact (Hin _ _ _ _ _ Hbody).
Qed.


(** What the dispatcher makes of a routed call that raises an [Exception]. *)
Lemma route_handler_call (self : MCPServer) (fields : dict value) (call : M value) :
  handler_call self fields call ->
  forall w cls msg w',
    call w = (Raises (Exc cls msg), w') ->
    route self (dict_get_default fields "method" VNone)
               (dict_get_default fields "params" (VDict []))
               (dict_get_default fields "id" VNone) w = (Raises (Exc cls msg), w').
Proof.
  intros [params tool_name func Hm Hp Hn Hin Hget | params uri func Hm Hp Hn Hget]
         w cls msg w' Hcall; rewrite Hm, Hp; unfold route; cbn [py_eq_str String.eqb Ascii.eqb Bool.eqb].
  - unfold _handle_tool_call, bind, lift, py_get, py_not_in, py_getitem.
    rewrite Hn. cbn [hashable is_key]. rewrite Hin, Hget. cbn [negb].
    now rewrite Hcall.
  - unfold _handle_resource_read, bind, lift, py_get, py_not_in, py_getitem.
    rewrite Hn. cbn [hashable is_key]. unfold dict_contains. rewrite Hget. cbn [negb].
    now rewrite Hcall.
Qed.

(** C4, as amended. When the function a request is routed to raises an
    instance of [Exception], the response is an error envelope that
    carries the request's id, the code -32603 and [str(e)] as its message,
    and no [result]; the loop prints it and goes on with the lines that
    follow, in the world the failed call left. *)
Theorem handler_exception_reported (self : MCPServer) (fields : dict value) (call : M value)
    (w w' : World) (cls msg : string) :
  handler_call self fields call ->
  call w = (Raises (Exc cls msg), w') ->
  exists response,
    handle_request self (VDict fields) w = (Returns response, w') /\
    response = _error_response (dict_get_default fields "id" VNone) (-32603) msg /\
    response_id response = Some (dict_get_default fields "id" VNone) /\
    response_error_code response = Some (VInt (-32603)) /\
    response_error_message response = Some (VStr msg) /\
    response_result response = None /\
    forall line rest,
      line <> "" ->
      json_loads line = inl (VDict fields) ->
      run self (line :: rest) w =
        (let '(out, how, w'') := run self rest w' in
         (json_encode None response :: out, how, w'')).
Proof.
  intros Hrouted Hcall.
  assert (Hreq : handle_request self (VDict fields) w =
                 (Returns (_error_response (dict_get_default fields "id" VNone) (-32603) msg), w')).
  { rewrite handle_request_on_dict. unfold try_except_Exception.
    now rewrite (route_handler_call _ _ _ Hrouted _ _ _ _ Hcall). }
  exists (_error_response (dict_get_default fields "id" VNone) (-32603) msg).
  split; [exact Hreq |]. do 5 (split; [reflexivity |]).
  intros line rest Hline Hloads.
  cbn [run]. apply String.eqb_neq in Hline. rewrite Hline.
  unfold serve_line, bind, lift. rewrite Hloads, Hreq.
  rewrite error_response_dumps; [reflexivity |].
  apply first_object_field; [| reflexivity].
  exact (json_loads_decoded _ _ Hloads).
Qed.

(** C1, as amended. For a [tools/call] request whose [params] is a JSON
    object (or absent): a name that can be hashed ([None], a boolean, a
    number, text) and is not a key of the tool registry gets the error
    envelope with code -32602; a name that is an array or an object gets
    the one with code -32603; a registered name, with arguments that bind
    to the parameters of its function and a function that returns a value
    [json.dumps] can encode, gets the success envelope whose [content] is
    the one-element list holding [type] ["text"] and, as [text], the
    encoding of that value with [indent=2]. *)
Theorem tools_call_response (self : MCPServer) (fields params : dict value) (w : World) :
  dict_get_default fields "method" VNone = VStr "tools/call" ->
  dict_get_default fields "params" (VDict []) = VDict params ->
  (hashable (dict_get_default params "name" VNone) = true ->
   is_key (tools self) (dict_get_default params "name" VNone) = false ->
   handle_request self (VDict fields) w =
     (Returns (_error_response (dict_get_default fields "id" VNone) (-32602)
                 ("Unknown tool: " ++ py_str (dict_get_default params "name" VNone))), w)) /\
  (hashable (dict_get_default params "name" VNone) = false ->
   handle_request self (VDict fields) w =
     (Returns (_error_response (dict_get_default fields "id" VNone) (-32603)
                 (interp_msg (Unhashable (dict_get_default params "name" VNone)))), w)) /\
  (forall tool_name func kwargs bound result w',
     dict_get_default params "name" VNone = VStr tool_name ->
     dict_contains (tools self) tool_name = true ->
     dict_get (tool_functions self) tool_name = Some func ->
     dict_get_default params "arguments" (VDict []) = VDict kwargs ->
     bind_arguments func kwargs = Returns bound ->
     fn_body func bound w = (Returns result, w') ->
     first_object result = None ->
     handle_request self (VDict fields) w =
       (Returns
          (result_response (dict_get_default fields "id" VNone)
             (VDict [("content",
                      VList [VDict [ ("type", VStr "text");
                                     ("text", VStr (json_encode (Some 2%nat) result)) ]])])),
        w')).
Proof.
  intros Hm Hp. rewrite handle_request_on_dict, Hm, Hp.
  unfold try_except_Exception, route. cbn [py_eq_str String.eqb Ascii.eqb Bool.eqb].
  unfold _handle_tool_call, bind, lift, ret, py_get, py_not_in.
  split; [| split].
  - intros Hhash Hkey. now rewrite Hhash, Hkey.
  - intros Hhash. now rewrite Hhash.
  - intros tool_name func kwargs bound result w' Hn Hin Hget Hargs Hbind Hbody Hjson.
    rewrite Hn, Hargs. unfold py_getitem. cbn [hashable is_key]. rewrite Hin, Hget. cbn [negb].
    unfold py_call_star, py_call, bind, lift. rewrite Hbind, Hbody.
    unfold json_dumps. now rewrite Hjson.
Qed.

(** C5, as amended. For a [resources/read] request whose [params] is a
    JSON object (or absent): a URI that can be hashed and is not a key of
    the resource registry gets the error envelope with code -32602 and the
    message ["Unknown resource: "] followed by [str(uri)], the URI itself
    when it is text; a URI that is an array or an object gets the one with
    code -32603; a registered URI whose function returns gets the success
    envelope whose [contents] is the one-element list holding the URI,
    [mimeType] ["text/plain"] and, as [text], what the function returned. *)
Theorem resources_read_response (self : MCPServer) (fields params : dict value) (w : World) :
  dict_get_default fields "method" VNone = VStr "resources/read" ->
  dict_get_default fields "params" (VDict []) = VDict params ->
  (hashable (dict_get_default params "uri" VNone) = true ->
   is_key (resources self) (dict_get_default params "uri" VNone) = false ->
   handle_request self (VDict fields) w =
     (Returns (_error_response (dict_get_default fields "id" VNone) (-32602)
                 ("Unknown resource: " ++ py_str (dict_get_default params "uri" VNone))), w)) /\
  (forall uri, py_str (VStr uri) = uri) /\
  (hashable (dict_get_default params "uri" VNone) = false ->
   handle_request self (VDict fields) w =
     (Returns (_error_response (dict_get_default fields "id" VNone) (-32603)
                 (interp_msg (Unhashable (dict_get_default params "uri" VNone)))), w)) /\
  (forall uri func content w',
     dict_get_default params "uri" VNone = VStr uri ->
     dict_get (resources self) uri = Some func ->
     py_call func [] w = (Returns content, w') ->
     handle_request self (VDict fields) w =
       (Returns
          (result_response (dict_get_default fields "id" VNone)
             (VDict [("contents",
                      VList [VDict [ ("uri", VStr uri);
                                     ("mimeType", VStr "text/plain");
                                     ("text", content) ]])])),
        w')).
Proof.
  intros Hm Hp. rewrite handle_request_on_dict, Hm, Hp.
  unfold try_except_Exception, route. cbn [py_eq_str String.eqb Ascii.eqb Bool.eqb].
  unfold _handle_resource_read, bind, lift, ret, py_get, py_not_in.
  split; [| split; [| split]].
  - intros Hhash Hkey. now rewrite Hhash, Hkey.
  - reflexivity.
  - intros Hhash. now rewrite Hhash.
  - intros uri func content w' Hn Hget Hcall.
    rewrite Hn. unfold py_getitem. cbn [hashable is_key]. unfold dict_contains.
    rewrite Hget. cbn [negb]. now rewrite Hcall.
Qed.

End Properties.

(* ================================================================== *)
(** ** The server at work *)

Module Examples.

Import Demo.

Lemma demo_handlers : handlers_raise_only_exceptions server.
Proof.
  split; repeat constructor; intros bound w cls msg w' H; cbn in H;
    repeat (break_match_in H; try discriminate); discriminate.
Qed.


(** [def g( *args, **kwargs)]: the schema requires [args], and [g()] binds. *)
Lemma required_of_variadic :
  Inspect._get_schema Inspect.variadic =
    Returns (VDict [ ("type", VStr "object");
                     ("properties", VDict [ ("args", VDict [("type", VStr "string")]);
                                            ("kwargs", VDict [("type", VStr "string")]) ]);
                     ("required", VList [VStr "args"; VStr "kwargs"]) ]) /\
  Inspect.binds Inspect.variadic [] = true /\
  In "args" (schema_required
               (VDict [ ("type", VStr "object");
                        ("properties", VDict [ ("args", VDict [("type", VStr "string")]);
                                               ("kwargs", VDict [("type", VStr "string")]) ]);
                        ("required", VList [VStr "args"; VStr "kwargs"]) ])).
Proof.
  split; [reflexivity |]. split; [reflexivity |].
  assert (Hself : "args" <> "self") by discriminate.
  exact (proj1 (variadic_parameter_is_required []
                  [ {| Inspect.par_name := "kwargs"; Inspect.par_kind := Inspect.VAR_KEYWORD;
                       Inspect.par_annotation := Inspect.empty_annotation;
                       Inspect.par_default := Inspect.empty_default |} ]
                  {| Inspect.par_name := "args"; Inspect.par_kind := Inspect.VAR_POSITIONAL;
                     Inspect.par_annotation := Inspect.empty_annotation;
                     Inspect.par_default := Inspect.empty_default |}
                  _ (or_introl eq_refl) eq_refl Hself eq_refl)).
Defined.

(** [tools/call] on the demo server: an unknown name, a name that is a
    list, and [add] with [a = 5], which answers with the text ["5"]. *)
Lemma tools_call_on_demo :
  handle_request server (call_request (VStr "nope") (VDict [])) 0%nat =
    (Returns (_error_response (VInt 1) (-32602) "Unknown tool: nope"), 0%nat) /\
  handle_request server (call_request (VList []) (VDict [])) 0%nat =
    (Returns (_error_response (VInt 1) (-32603) "unhashable type"), 0%nat) /\
  handle_request server (call_request (VStr "add") (VDict [("a", VInt 5)])) 0%nat =
    (Returns
       (result_response (VInt 1)
          (VDict [("content", VList [VDict [("type", VStr "text"); ("text", VStr "5")]])])),
     0%nat).
Proof.
  split; [| split].
  - exact (proj1 (tools_call_response server
                    (call_fields (VStr "nope") (VDict []))
                    (call_params (VStr "nope") (VDict []))
                    0%nat eq_refl eq_refl) eq_refl eq_refl).
  - exact (proj1 (proj2 (tools_call_response server
                           (call_fields (VList []) (VDict []))
                           (call_params (VList []) (VDict []))
                           0%nat eq_refl eq_refl)) eq_refl).
  - exact (proj2 (proj2 (tools_call_response server
                           (call_fields (VStr "add") (VDict [("a", VInt 5)]))
                           (call_params (VStr "add") (VDict [("a", VInt 5)]))
                           0%nat eq_refl eq_refl))
             "add" add [("a", VInt 5)] [("a", VInt 5); ("b", VInt 0)] (VInt 5) 0%nat
             eq_refl eq_refl eq_refl eq_refl eq_refl eq_refl eq_refl).
Defined.

(** A name that is a list cannot be looked up: the server answers -32603,
    although the name is no key of the registry. *)
Lemma tools_call_with_list_name :
  is_key (tools server) (VList []) = false /\
  handle_request server (call_request (VList []) (VDict [])) 0%nat =
    (Returns (_error_response (VInt 1) (-32603) "unhashable type"), 0%nat) /\
  response_error_code (_error_response (VInt 1) (-32603) "unhashable type") <> Some (VInt (-32602)).
Proof.
  split; [reflexivity |]. split; [reflexivity | discriminate].
Qed.

(** [resources/read] on the demo server: an unregistered URI, a URI that
    is a list, and the registered ["system://status"]. *)
Lemma resources_read_on_demo :
  handle_request server (read_request (VStr "system://bogus")) 0%nat =
    (Returns (_error_response (VInt 2) (-32602) "Unknown resource: system://bogus"), 0%nat) /\
  handle_request server (read_request (VList [])) 0%nat =
    (Returns (_error_response (VInt 2) (-32603) "unhashable type"), 0%nat) /\
  handle_request server (read_request (VStr "system://status")) 0%nat =
    (Returns
       (result_response (VInt 2)
          (VDict [("contents",
                   VList [VDict [ ("uri", VStr "system://status");
                                  ("mimeType", VStr "text/plain");
                                  ("text", VStr "ok") ]])])),
     0%nat).
Proof.
  split; [| split].
  - exact (proj1 (resources_read_response server
                    (read_fields (VStr "system://bogus"))
                    (read_params (VStr "system://bogus"))
                    0%nat eq_refl eq_refl) eq_refl eq_refl).
  - exact (proj1 (proj2 (proj2 (resources_read_response server
                                  (read_fields (VList []))
                                  (read_params (VList []))
                                  0%nat eq_refl eq_refl))) eq_refl).
  - exact (proj2 (proj2 (proj2 (resources_read_response server
                                  (read_fields (VStr "system://status"))
                                  (read_params (VStr "system://status"))
                                  0%nat eq_refl eq_refl)))
             "system://status" status (VStr "ok") 0%nat eq_refl eq_refl eq_refl).
Defined.

(** A URI that is a list cannot be looked up: the server answers -32603,
    although the URI is no key of the registry. *)
Lemma resources_read_with_list_uri :
  is_key (resources server) (VList []) = false /\
  handle_request server (read_request (VList [])) 0%nat =
    (Returns (_error_response (VInt 2) (-32603) "unhashable type"), 0%nat) /\
  response_error_code (_error_response (VInt 2) (-32603) "unhashable type") <> Some (VInt (-32602)).
Proof.
  split; [reflexivity |]. split; [reflexivity | discriminate].
Qed.

(** A request that is not a [dict] has no [get]: [handle_request] raises
    to its caller. *)
Lemma handle_request_raises_on_list :
  handle_request server (VList []) 0%nat =
  (Raises (Exc "AttributeError" "object has no attribute get"), 0%nat).
Proof. reflexivity. Qed.

(** On the demo server every request that is a [dict] is answered. *)
Lemma boom_request_answered :
  handlers_raise_only_exceptions server /\
  exists resp w',
    handle_request server boom_request 0%nat = (Returns resp, w') /\
    is_response_envelope (VInt 1) resp.
Proof.
  split; [exact demo_handlers |].
  exact (handle_request_returns_envelope server (call_fields (VStr "boom") (VDict []))
           0%nat demo_handlers).
Defined.

(** On the demo server a request that is a [dict] is answered with its id. *)
Lemma boom_answer_carries_id :
  handlers_raise_only_exceptions server /\
  exists resp w',
    handle_request server boom_request 0%nat = (Returns resp, w') /\
    response_id resp = Some (VInt 1).
Proof.
  split; [exact demo_handlers |].
  exact (proj2 (response_echoes_request_id server (call_fields (VStr "boom") (VDict []))
                  0%nat) demo_handlers).
Defined.


(** [boom] raises: the caller reads -32603 with the message of the
    exception, and the line after it is served. *)
Lemma boom_then_empty_object :
  exists response,
    handle_request server boom_request 0%nat = (Returns response, 1%nat) /\
    response_id response = Some (VInt 1) /\
    response_error_code response = Some (VInt (-32603)) /\
    response_error_message response = Some (VStr "boom") /\
    run server [encode boom_request; "{}"] 0%nat =
      ([ encode response;
         encode (_error_response VNone (-32601) "Method not found: None") ],
       EndOfInput, 1%nat).
Proof.
  assert (Hrouted : handler_call server (call_fields (VStr "boom") (VDict []))
                      (py_call_star boom (VDict []))).
  { exact (ToolCall server (call_fields (VStr "boom") (VDict []))
             (call_params (VStr "boom") (VDict [])) "boom" boom
             eq_refl eq_refl eq_refl eq_refl eq_refl). }
  assert (Hne : encode boom_request <> "") by (vm_compute; discriminate).
  destruct (handler_exception_reported server (call_fields (VStr "boom") (VDict []))
              (py_call_star boom (VDict [])) 0%nat 1%nat "RuntimeError" "boom"
              Hrouted eq_refl)
    as (response & Hreq & _ & Hid & Hcode & Hmessage & _ & Hloop).
  exists response. split; [exact Hreq |]. split; [exact Hid |]. split; [exact Hcode |].
  split; [exact Hmessage |].
  exact (Hloop (encode boom_request) ["{}"] Hne eq_refl).
Defined.

(** C9. For a resource registered under ["a://b://c"], [resources/list]
    reports the name ["b"]: the text after the first separator is
    ["b://c"], and [uri.split("://")[1]] stops at the second one. *)
Lemma resources_list_name_of_two_separators :
  _handle_resources_list (resource (__init__ "S") "a://b://c" status) VNone 0%nat =
    (Returns (result_response VNone
                (VDict [("resources", VList [resource_descriptor "a://b://c" "b"])])),
     0%nat) /\
  path_after_separator "a://b://c" = "b://c" /\
  resource_descriptor "a://b://c" "b" <>
  resource_descriptor "a://b://c" (path_after_separator "a://b://c").
Proof.
  split; [reflexivity |]. split; [reflexivity | discriminate].
Qed.

(** The name listed for ["system://status"] is the text after its separator. *)
Lemma name_of_status :
  str_contains "://" (path_after_separator "system://status") = false /\
  first_path_segment "system://status" = path_after_separator "system://status".
Proof.
  split; [reflexivity |].
  exact (proj1 (proj2 (proj2 (resources_list_descriptors server VNone 0%nat)))
           "system://status" eq_refl).
Defined.

(** On the demo server [tools/call] of [add] reaches the function [add]
    and runs it. *)
Lemma add_is_found :
  dict_contains (tools server) "add" = true /\
  exists func,
    latest_tool regs "add" = Some func /\
    py_getitem (tool_functions server) (VStr "add") = Returns func /\
    _handle_tool_call server (VDict (call_params (VStr "add") (VDict [("a", VInt 5)])))
        (VInt 1) 0%nat =
      (Returns
         (result_response (VInt 1)
            (VDict [("content", VList [VDict [("type", VStr "text"); ("text", VStr "5")]])])),
       0%nat).
Proof.
  split; [reflexivity |].
  destruct (proj2 (registries_share_keys "SystemMonitor" regs) "add" eq_refl)
    as (func & Hlatest & Hget & Hcall).
  exists func. split; [exact Hlatest |]. split; [exact Hget |].
  assert (Hadd : func = add) by (cbn in Hlatest; now injection Hlatest).
  subst func.
  exact (proj1 (Hcall (call_params (VStr "add") (VDict [("a", VInt 5)])) (VInt 1)
                  [("a", VInt 5)] 0%nat eq_refl eq_refl)
           [("a", VInt 5); ("b", VInt 0)] eq_refl).
Defined.

End Examples.

(* ================================================================== *)
(** ** More on dictionaries: keys in order of first assignment *)

Lemma filter_filter_ext {A : Type} (f g h : A -> bool) (l : list A) :
  (forall x, h x = g x && f x) -> filter f (filter g l) = filter h l.
Proof.
  intros Hh. induction l as [| x l IH]; simpl; [reflexivity |].
  rewrite Hh. destruct (g x); simpl; [destruct (f x); now rewrite IH | exact IH].
Qed.

Lemma filter_all {A : Type} (f : A -> bool) (l : list A) :
  (forall x, f x = true) -> filter f l = l.
Proof.
  intros Hf. induction l as [| x l IH]; simpl; [reflexivity |].
  now rewrite Hf, IH.
Qed.

Lemma dict_contains_existsb {V : Type} (d : dict V) (key : string) :
  dict_contains d key = existsb (String.eqb key) (dict_keys d).
Proof.
  unfold dict_contains. induction d as [| [k x] d IH]; simpl; [reflexivity |].
  rewrite (String.eqb_sym key k). destruct (String.eqb k key); [reflexivity | exact IH].
Qed.

Lemma dict_keys_set_cases {V : Type} (d : dict V) (key : string) (v : V) :
  dict_keys (dict_set d key v) =
  if dict_contains d key then dict_keys d else dict_keys d ++ [key].
Proof.
  unfold dict_contains. induction d as [| [k x] d IH]; simpl; [reflexivity |].
  destruct (String.eqb k key) eqn:E; simpl; [reflexivity |].
  rewrite IH. now destruct (dict_get d key).
Qed.

Lemma nodup_snoc {A : Type} (l : list A) (a : A) :
  NoDup l -> ~ In a l -> NoDup (l ++ [a]).
Proof.
  induction l as [| x l IH]; simpl; intros Hnd Hin.
  - constructor; [tauto | constructor].
  - inversion Hnd as [| y ys Hx Hl]; subst. constructor.
    + rewrite in_app_iff. simpl. intros [H | [H | []]]; [contradiction | subst; tauto].
    + apply IH; tauto.
Qed.

Lemma dict_set_keeps_nodup {V : Type} (d : dict V) (key : string) (v : V) :
  NoDup (dict_keys d) -> NoDup (dict_keys (dict_set d key v)).
Proof.
  intros Hnd. rewrite dict_keys_set_cases.
  destruct (dict_contains d key) eqn:E; [exact Hnd |].
  apply nodup_snoc; [exact Hnd |].
  intros Hin. apply dict_contains_keys in Hin. congruence.
Qed.

Lemma dict_set_map {A B : Type} (g : A -> B) (d : dict A) (key : string) (a : A) :
  dict_set (map (fun kv => (fst kv, g (snd kv))) d) key (g a) =
  map (fun kv => (fst kv, g (snd kv))) (dict_set d key a).
Proof.
  induction d as [| [k x] d IH]; simpl; [reflexivity |].
  destruct (String.eqb k key); simpl; [reflexivity | now rewrite IH].
Qed.

Lemma dict_set_forall {V : Type} (P : string * V -> Prop) (d : dict V) (key : string) (v : V) :
  Forall P d -> P (key, v) -> Forall P (dict_set d key v).
Proof.
  intros Hd Hkv. induction d as [| [k x] d IH]; simpl.
  - constructor; [exact Hkv | constructor].
  - inversion Hd as [| y ys Hx Hrest]; subst.
    destruct (String.eqb k key) eqn:E.
    + apply String.eqb_eq in E. subst k. constructor; assumption.
    + constructor; [exact Hx | exact (IH Hrest)].
Qed.

Lemma dict_get_in_nodup {V : Type} (d : dict V) (key : string) (v : V) :
  NoDup (dict_keys d) -> In (key, v) d -> dict_get d key = Some v.
Proof.
  induction d as [| [k x] d IH]; simpl; intros Hnd Hin; [contradiction |].
  inversion Hnd as [| y ys Hk Hrest]; subst.
  destruct Hin as [Heq | Hin].
  - injection Heq as -> ->. now rewrite String.eqb_refl.
  - destruct (String.eqb k key) eqn:E; [| exact (IH Hrest Hin)].
    apply String.eqb_eq in E. subst k. exfalso. apply Hk.
    change key with (fst (key, v)). now apply in_map.
Qed.

Lemma keys_after_first_occurrences (names keys : list string) :
  keys_after keys names =
  keys ++ filter (fun m => negb (existsb (String.eqb m) keys)) (first_occurrences names).
Proof.
  unfold keys_after. revert keys.
  induction names as [| n names IH]; intros keys; simpl; [now rewrite app_nil_r |].
  rewrite IH. destruct (existsb (String.eqb n) keys) eqn:E; simpl.
  - f_equal. symmetry. apply filter_filter_ext. intros m.
    destruct (String.eqb m n) eqn:Em; simpl; [| reflexivity].
    apply String.eqb_eq in Em. subst m. now rewrite E.
  - rewrite <- app_assoc. simpl. f_equal. f_equal. symmetry.
    apply filter_filter_ext. intros m.
    rewrite existsb_app. simpl. rewrite orb_false_r, negb_orb. apply andb_comm.
Qed.

Lemma keys_after_empty (names : list string) :
  keys_after [] names = first_occurrences names.
Proof.
  rewrite keys_after_first_occurrences. simpl. now apply filter_all.
Qed.

Lemma keys_after_app (keys names names' : list string) :
  keys_after keys (names ++ names') = keys_after (keys_after keys names) names'.
Proof. unfold keys_after. apply fold_left_app. Qed.

Section Coverage.

Context {RT : PyRuntime}.

#[local] Notation "x <- m ;; k" := (bind m (fun x => k))
  (at level 61, m at next level, right associativity).

(* ---------------------------------------------------------------- *)
(** *** What registration leaves in the three maps *)

Lemma fold_register_name (regs : list registration) (self : MCPServer) :
  name (fold_left register regs self) = name self.
Proof.
  revert self. induction regs as [| r regs IH]; intros self; simpl; [reflexivity |].
  rewrite IH. now destruct r.
Qed.

Lemma fold_register_tool_keys (regs : list registration) (self : MCPServer) :
  dict_keys (tools (fold_left register regs self)) =
  keys_after (dict_keys (tools self)) (tool_names regs).
Proof.
  revert self. induction regs as [| r regs IH]; intros self; simpl; [reflexivity |].
  rewrite IH. destruct r as [func | uri func]; simpl; [| reflexivity].
  unfold keys_after at 2. simpl. fold (keys_after
    (if existsb (String.eqb (fn_name func)) (dict_keys (tools self))
     then dict_keys (tools self) else dict_keys (tools self) ++ [fn_name func])
    (tool_names regs)).
  now rewrite dict_keys_set_cases, dict_contains_existsb.
Qed.

Lemma fold_register_resource_keys (regs : list registration) (self : MCPServer) :
  dict_keys (resources (fold_left register regs self)) =
  keys_after (dict_keys (resources self)) (resource_uris regs).
Proof.
  revert self. induction regs as [| r regs IH]; intros self; simpl; [reflexivity |].
  rewrite IH. destruct r as [func | uri func]; simpl; [reflexivity |].
  unfold keys_after at 2. simpl. fold (keys_after
    (if existsb (String.eqb uri) (dict_keys (resources self))
     then dict_keys (resources self) else dict_keys (resources self) ++ [uri])
    (resource_uris regs)).
  now rewrite dict_keys_set_cases, dict_contains_existsb.
Qed.

Lemma fold_register_latest_resource (regs : list registration) (self : MCPServer) (uri : string) :
  dict_get (resources (fold_left register regs self)) uri =
  match latest_resource regs uri with
  | Some func => Some func
  | None => dict_get (resources self) uri
  end.
Proof.
  revert self. induction regs as [| r regs IH]; intros self; simpl; [reflexivity |].
  rewrite IH. destruct (latest_resource regs uri) as [func |]; [reflexivity |].
  destruct r as [func | uri' func]; simpl; [reflexivity |].
  destruct (String.eqb uri' uri) eqn:E.
  - apply String.eqb_eq in E. subst uri'. apply dict_get_set_same.
  - apply String.eqb_neq in E. now apply dict_get_set_other.
Qed.

Lemma fold_register_lockstep (regs : list registration) (self : MCPServer) :
  in_lockstep self -> in_lockstep (fold_left register regs self).
Proof.
  revert self. induction regs as [| r regs IH]; intros self H; simpl; [exact H |].
  apply IH. destruct r as [func | uri func]; [| exact H].
  destruct H as (Hmap & Hnames & Hnd). unfold in_lockstep. simpl. repeat split.
  - rewrite Hmap. apply (dict_set_map tool_descriptor).
  - apply dict_set_forall; [exact Hnames | reflexivity].
  - now apply dict_set_keeps_nodup.
Qed.

(** X3. After any sequence of registrations, the descriptor map is the
    handler map with each function replaced by its descriptor (its
    [__name__], its docstring or [""], the schema of its signature): same
    keys, same order, each function stored under its own [__name__], and no
    name twice. *)
Theorem descriptors_mirror_handlers (server_name : string) (regs : list registration) :
  tools (registered server_name regs) =
    map (fun kv => (fst kv, tool_descriptor (snd kv)))
        (tool_functions (registered server_name regs)) /\
  Forall (fun kv => fst kv = fn_name (snd kv)) (tool_functions (registered server_name regs)) /\
  NoDup (dict_keys (tool_functions (registered server_name regs))).
Proof.
  apply fold_register_lockstep. repeat split; constructor.
Qed.

(* ---------------------------------------------------------------- *)
(** *** The routes that call no handler *)

(** X1. A request whose [method] is none of the five routed names, or is
    missing, or is not text, gets the error envelope with code -32601 and
    the message ["Method not found: "] followed by [str(method)]; nothing
    else happens. *)
Theorem unknown_method_answer (self : MCPServer) (fields : dict value) (w : World) :
  known_method (dict_get_default fields "method" VNone) = false ->
  handle_request self (VDict fields) w =
    (Returns (_error_response (dict_get_default fields "id" VNone) (-32601)
                ("Method not found: " ++ py_str (dict_get_default fields "method" VNone))),
     w).
Proof.
  intros H. rewrite handle_request_on_dict. unfold try_except_Exception, route.
  unfold known_method in H. cbn [existsb] in H.
  repeat (apply orb_false_elim in H; destruct H as [? H]).
  repeat match goal with E : py_eq_str _ _ = false |- _ => rewrite E; clear E end.
  reflexivity.
Qed.

(** X2. [initialize] answers with the protocol version ["2024-11-05"],
    empty capabilities, and the name the server was constructed with,
    whatever was registered since and whatever [params] holds (it is not
    read); no handler runs. *)
Theorem initialize_answer (server_name : string) (regs : list registration)
    (fields : dict value) (w : World) :
  dict_get_default fields "method" VNone = VStr "initialize" ->
  handle_request (registered server_name regs) (VDict fields) w =
    (Returns
       (result_response (dict_get_default fields "id" VNone)
          (VDict [ ("protocolVersion", VStr "2024-11-05");
                   ("capabilities", VDict [("tools", VDict []); ("resources", VDict [])]);
                   ("serverInfo",
                    VDict [("name", VStr server_name); ("version", VStr "1.0.0")]) ])),
     w).
Proof.
  intros Hm. rewrite handle_request_on_dict, Hm.
  unfold try_except_Exception, route, ret, _handle_initialize. cbn [py_eq_str String.eqb Ascii.eqb Bool.eqb].
  unfold registered. now rewrite fold_register_name.
Qed.

(** X4. [tools/list] answers with one descriptor per registered name, in
    the order in which the names were first registered; the descriptor
    under a name is that of the function the latest registration of the
    name gave.  [params] is not read and no handler runs. *)
Theorem tools_list_answer (server_name : string) (regs : list registration)
    (fields : dict value) (w : World) :
  dict_get_default fields "method" VNone = VStr "tools/list" ->
  exists funcs,
    handle_request (registered server_name regs) (VDict fields) w =
      (Returns (result_response (dict_get_default fields "id" VNone)
                  (VDict [("tools", VList (map tool_descriptor funcs))])),
       w) /\
    map fn_name funcs = first_occurrences (tool_names regs) /\
    Forall (fun func => latest_tool regs (fn_name func) = Some func) funcs.
Proof.
  intros Hm.
  destruct (fold_register_lockstep regs (__init__ server_name)) as (Hmap & Hnames & Hnd);
    [repeat split; constructor |].
  fold (registered server_name regs) in Hmap, Hnames, Hnd.
  exists (dict_values (tool_functions (registered server_name regs))).
  assert (Hkeys : map fn_name (dict_values (tool_functions (registered server_name regs))) =
                  dict_keys (tool_functions (registered server_name regs))).
  { unfold dict_values, dict_keys. rewrite map_map. apply map_ext_in.
    intros kv Hin. rewrite Forall_forall in Hnames. symmetry. now apply Hnames. }
  split; [| split].
  - rewrite handle_request_on_dict, Hm.
    unfold try_except_Exception, route, ret, _handle_tools_list.
    cbn [py_eq_str String.eqb Ascii.eqb Bool.eqb].
    rewrite Hmap. unfold dict_values. now rewrite !map_map.
  - rewrite Hkeys. unfold registered.
    rewrite <- fold_register_keys by reflexivity.
    rewrite fold_register_tool_keys. apply keys_after_empty.
  - apply Forall_forall. intros func Hin.
    unfold dict_values in Hin. apply in_map_iff in Hin.
    destruct Hin as ([k f] & Hf & Hin). simpl in Hf. subst f.
    assert (Hk : k = fn_name func).
    { rewrite Forall_forall in Hnames. exact (Hnames _ Hin). }
    subst k. apply (dict_get_in_nodup _ _ _ Hnd) in Hin.
    unfold registered in Hin. rewrite fold_register_latest in Hin.
    destruct (latest_tool regs (fn_name func)); [exact Hin | discriminate].
Qed.

(** X5. After any sequence of registrations the resource registry holds
    each registered URI once, in the order in which the URIs were first
    registered, and under a URI the function its latest registration gave:
    registering a URI again replaces its function and keeps its place. *)
Theorem resources_registry_contents (server_name : string) (regs : list registration) :
  dict_keys (resources (registered server_name regs)) = first_occurrences (resource_uris regs) /\
  NoDup (dict_keys (resources (registered server_name regs))) /\
  forall uri, dict_get (resources (registered server_name regs)) uri = latest_resource regs uri.
Proof.
  split; [| split].
  - unfold registered. rewrite fold_register_resource_keys. apply keys_after_empty.
  - unfold registered. induction regs as [| r regs IH] using rev_ind; [constructor |].
    rewrite fold_left_app. simpl. destruct r as [func | uri func]; simpl; [exact IH |].
    now apply dict_set_keeps_nodup.
  - intros uri. unfold registered. rewrite fold_register_latest_resource.
    now destruct (latest_resource regs uri).
Qed.

(* ---------------------------------------------------------------- *)
(** *** The shape of every answer *)

Lemma route_returns_shape (self : MCPServer) (method params request_id resp : value) (w w' : World) :
  route self method params request_id w = (Returns resp, w') ->
  (exists result, resp = result_response request_id result) \/
  (exists message,
      resp = _error_response request_id (-32601) message /\ known_method method = false) \/
  (exists message,
      resp = _error_response request_id (-32602) message /\
      (py_eq_str method "tools/call" = true \/ py_eq_str method "resources/read" = true)).
Proof.
  unfold route, known_method. cbn [existsb].
  destruct (py_eq_str method "initialize") eqn:E1;
    [intros H; injection H as <- <-; left; eexists; reflexivity |].
  destruct (py_eq_str method "tools/list") eqn:E2;
    [intros H; injection H as <- <-; left; eexists; reflexivity |].
  destruct (py_eq_str method "tools/call") eqn:E3.
  { unfold _handle_tool_call, bind, lift, ret. intros H.
    repeat (break_match_in H; try discriminate); injection H as <- <-;
      solve [ left; eexists; reflexivity
            | right; right; eexists; split; [reflexivity | now left] ]. }
  destruct (py_eq_str method "resources/list") eqn:E4.
  { unfold _handle_resources_list, bind, lift, ret. intros H.
    repeat (break_match_in H; try discriminate); injection H as <- <-.
    left; eexists; reflexivity. }
  destruct (py_eq_str method "resources/read") eqn:E5.
  { unfold _handle_resource_read, bind, lift, ret. intros H.
    repeat (break_match_in H; try discriminate); injection H as <- <-;
      solve [ left; eexists; reflexivity
            | right; right; eexists; split; [reflexivity | now right] ]. }
  intros H. injection H as <- <-. right. left. eexists. split; reflexivity.
Qed.

(** X10. The answer to a request that is a JSON object is either a result
    envelope or an error envelope whose code is -32601, -32602 or -32603;
    -32601 comes only for a method that is not routed, -32602 only from
    [tools/call] and [resources/read].  There is no answer only where the
    body of a registered function ended the call with an exception that is
    not an [Exception]. *)
Theorem answer_shape (self : MCPServer) (fields : dict value) (w : World) :
  (exists resp w',
      handle_request self (VDict fields) w = (Returns resp, w') /\
      ((exists result, resp = result_response (dict_get_default fields "id" VNone) result) \/
       (exists code message,
           resp = _error_response (dict_get_default fields "id" VNone) code message /\
           response_error_code resp = Some (VInt code) /\
           In code dispatcher_error_codes /\
           (code = (-32601)%Z -> known_method (dict_get_default fields "method" VNone) = false) /\
           (code = (-32602)%Z ->
            dict_get_default fields "method" VNone = VStr "tools/call" \/
            dict_get_default fields "method" VNone = VStr "resources/read")))) \/
  (exists cls msg w' func bound w0,
      handle_request self (VDict fields) w = (Raises (BaseExc cls msg), w') /\
      (In func (dict_values (tool_functions self)) \/ In func (dict_values (resources self))) /\
      fn_body func bound w0 = (Raises (BaseExc cls msg), w')).
Proof.
  rewrite handle_request_on_dict. unfold try_except_Exception.
  destruct (route self _ _ _ w) as [[resp | [cls msg | cls msg]] w'] eqn:E.
  - left. exists resp, w'. split; [reflexivity |].
    apply route_returns_shape in E.
    destruct E as [Hres | [(message & -> & Hm) | (message & -> & Hm)]]; [now left | |].
    + right. exists (-32601)%Z, message.
      repeat split; [simpl; tauto | auto | discriminate].
    + right. exists (-32602)%Z, message. repeat split; [simpl; tauto | discriminate |].
      intros _. unfold py_eq_str in Hm.
      destruct (dict_get_default fields "method" VNone); try (destruct Hm; discriminate).
      destruct Hm as [Hm | Hm]; apply String.eqb_eq in Hm; subst; auto.
  - left. do 2 eexists. split; [reflexivity |]. right.
    exists (-32603)%Z, msg. repeat split; [simpl; tauto | discriminate | discriminate].
  - right. apply route_base_exception in E. destruct E as (func & bound & w0 & Hin & Hb).
    exists cls, msg, w', func, bound, w0. auto.
Qed.

(* ---------------------------------------------------------------- *)
(** *** The loop on lines that are JSON *)

Lemma handle_request_not_dict (self : MCPServer) (request : value) (w : World) :
  (forall fields, request <> VDict fields) ->
  handle_request self request w = (Raises (raised (NoAttribute request "get")), w).
Proof.
  intros H. unfold handle_request, bind, lift, py_get.
  destruct request; try reflexivity. now contradiction (H entries).
Qed.

(** X6. A line that is JSON but not an object (an array, a number, text,
    [null]) is answered like a line that is no JSON: the loop prints the
    error envelope with id [None] and code -32700, carrying the message of
    the [AttributeError] that [request.get] raised, and goes on. *)
Theorem non_object_line_reported (self : MCPServer) (line : string) (rest : list string)
    (w : World) (request : value) :
  line <> "" ->
  json_loads line = inl request ->
  (forall fields, request <> VDict fields) ->
  run self (line :: rest) w =
    (let '(out, how, w') := run self rest w in
     (json_encode None
        (_error_response VNone (-32700)
           ("Parse error: " ++ interp_msg (NoAttribute request "get"))) :: out,
      how, w')).
Proof.
  intros Hline Hloads Hreq.
  cbn [run]. apply String.eqb_neq in Hline. rewrite Hline.
  unfold serve_line, bind, lift. rewrite Hloads, (handle_request_not_dict _ _ _ Hreq).
  unfold raised. rewrite error_response_dumps by reflexivity. reflexivity.
Qed.

(** X8. When a tool returns a value that [json.dumps] cannot encode, the
    answer is the error envelope with code -32603 and the message of the
    [TypeError]; the tool has run, and the world is the one it left. *)
Theorem tool_result_not_serializable (self : MCPServer) (fields params kwargs bound : dict value)
    (tool_name cls : string) (func : pyfunc) (result : value) (w w' : World) :
  dict_get_default fields "method" VNone = VStr "tools/call" ->
  dict_get_default fields "params" (VDict []) = VDict params ->
  dict_get_default params "name" VNone = VStr tool_name ->
  dict_contains (tools self) tool_name = true ->
  dict_get (tool_functions self) tool_name = Some func ->
  dict_get_default params "arguments" (VDict []) = VDict kwargs ->
  bind_arguments func kwargs = Returns bound ->
  fn_body func bound w = (Returns result, w') ->
  first_object result = Some cls ->
  handle_request self (VDict fields) w =
    (Returns (_error_response (dict_get_default fields "id" VNone) (-32603)
                (interp_msg (NotSerializable cls))), w').
Proof.
  intros Hm Hp Hn Hin Hget Hargs Hbind Hbody Hobj.
  rewrite handle_request_on_dict, Hm, Hp.
  unfold try_except_Exception, route. cbn [py_eq_str String.eqb Ascii.eqb Bool.eqb].
  unfold _handle_tool_call, bind, lift, ret, py_get, py_not_in, py_getitem.
  rewrite Hn, Hargs. cbn [hashable is_key]. rewrite Hin, Hget. cbn [negb].
  unfold py_call_star, py_call, bind, lift. rewrite Hbind, Hbody.
  unfold json_dumps. now rewrite Hobj.
Qed.

(** X7. When a resource function returns a value that [json.dumps] cannot
    encode, the dispatcher still builds the success envelope around it; it
    is the loop that fails to print it, and prints instead the error
    envelope with id [None] and code -32700, after the function has run. *)
Theorem resource_content_not_serializable (self : MCPServer) (fields params : dict value)
    (uri cls : string) (func : pyfunc) (content : value) (w w' : World)
    (line : string) (rest : list string) :
  dict_get_default fields "method" VNone = VStr "resources/read" ->
  dict_get_default fields "params" (VDict []) = VDict params ->
  dict_get_default params "uri" VNone = VStr uri ->
  dict_get (resources self) uri = Some func ->
  py_call func [] w = (Returns content, w') ->
  first_object content = Some cls ->
  line <> "" ->
  json_loads line = inl (VDict fields) ->
  handle_request self (VDict fields) w =
    (Returns
       (result_response (dict_get_default fields "id" VNone)
          (VDict [("contents",
                   VList [VDict [ ("uri", VStr uri);
                                  ("mimeType", VStr "text/plain");
                                  ("text", content) ]])])),
     w') /\
  run self (line :: rest) w =
    (let '(out, how, w'') := run self rest w' in
     (json_encode None
        (_error_response VNone (-32700)
           ("Parse error: " ++ interp_msg (NotSerializable cls))) :: out,
      how, w'')).
Proof.
  intros Hm Hp Hn Hget Hcall Hobj Hline Hloads.
  assert (Hreq : handle_request self (VDict fields) w =
    (Returns
       (result_response (dict_get_default fields "id" VNone)
          (VDict [("contents",
                   VList [VDict [ ("uri", VStr uri);
                                  ("mimeType", VStr "text/plain");
                                  ("text", content) ]])])),
     w')).
  { rewrite handle_request_on_dict, Hm, Hp.
    unfold try_except_Exception, route. cbn [py_eq_str String.eqb Ascii.eqb Bool.eqb].
    unfold _handle_resource_read, bind, lift, ret, py_get, py_not_in, py_getitem.
    rewrite Hn. cbn [hashable is_key]. unfold dict_contains. rewrite Hget. cbn [negb].
    now rewrite Hcall. }
  split; [exact Hreq |].
  cbn [run]. apply String.eqb_neq in Hline. rewrite Hline.
  unfold serve_line, bind, lift. rewrite Hloads, Hreq.
  assert (Hid : first_object (dict_get_default fields "id" VNone) = None).
  { apply first_object_field; [exact (json_loads_decoded _ _ Hloads) | reflexivity]. }
  unfold json_dumps at 1, result_response. cbn [first_object]. rewrite Hid, Hobj.
  unfold raised. cbn [error_class].
  rewrite error_response_dumps by reflexivity. reflexivity.
Qed.

(** Whatever the routed function raises, [route] raises. *)
Lemma route_handler_call_raises (self : MCPServer) (fields : dict value) (call : M value) :
  handler_call self fields call ->
  forall w e w',
    call w = (Raises e, w') ->
    route self (dict_get_default fields "method" VNone)
               (dict_get_default fields "params" (VDict []))
               (dict_get_default fields "id" VNone) w = (Raises e, w').
Proof.
  intros [params tool_name func Hm Hp Hn Hin Hget | params uri func Hm Hp Hn Hget]
         w e w' Hcall; rewrite Hm, Hp; unfold route;
    cbn [py_eq_str String.eqb Ascii.eqb Bool.eqb].
  - unfold _handle_tool_call, bind, lift, py_get, py_not_in, py_getitem.
    rewrite Hn. cbn [hashable is_key]. rewrite Hin, Hget. cbn [negb].
    now rewrite Hcall.
  - unfold _handle_resource_read, bind, lift, py_get, py_not_in, py_getitem.
    rewrite Hn. cbn [hashable is_key]. unfold dict_contains. rewrite Hget. cbn [negb].
    now rewrite Hcall.
Qed.

(** X14. An exception that is not an [Exception] ([SystemExit],
    [KeyboardInterrupt]) raised by the function a request is routed to
    passes both [except Exception] clauses: nothing is printed for the
    request, the loop ends with that exception, and the lines after it are
    not read. *)
Theorem base_exception_ends_loop (self : MCPServer) (fields : dict value) (call : M value)
    (line : string) (rest : list string) (w w' : World) (cls msg : string) :
  handler_call self fields call ->
  call w = (Raises (BaseExc cls msg), w') ->
  line <> "" ->
  json_loads line = inl (VDict fields) ->
  run self (line :: rest) w = ([], Uncaught (BaseExc cls msg), w').
Proof.
  intros Hrouted Hcall Hline Hloads.
  cbn [run]. apply String.eqb_neq in Hline. rewrite Hline.
  unfold serve_line, bind, lift. rewrite Hloads, handle_request_on_dict.
  unfold try_except_Exception.
  now rewrite (route_handler_call_raises _ _ _ Hrouted _ _ _ Hcall).
Qed.

(** One turn of the loop, on a server whose functions fail only with
    instances of [Exception]: an envelope to print, or an [Exception]. *)
Lemma serve_line_cases (self : MCPServer) (line : string) (w : World) :
  handlers_raise_only_exceptions self ->
  (exists printed w', serve_line self line w = (Returns printed, w') /\
                      is_printed_envelope printed) \/
  (exists cls msg w', serve_line self line w = (Raises (Exc cls msg), w')).
Proof.
  intros [Htools Hres]. unfold serve_line, bind, lift.
  destruct (json_loads line) as [request | msg]; [| right; eauto].
  assert (Hdict : (exists fields, request = VDict fields) \/
                  (forall fields, request <> VDict fields)).
  { destruct request; try (right; discriminate). left. eauto. }
  destruct Hdict as [[fields ->] | Hnot].
  - destruct (handle_request_dict_cases self fields w)
      as [(resp & w' & -> & Henv) | (cls & msg & w' & func & bound & w0 & _ & Hin & Hbody)].
    + unfold json_dumps, raised. destruct (first_object resp); [right; eauto |].
      left. do 2 eexists. split; [reflexivity |]. do 2 eexists. split; [exact Henv | reflexivity].
    + exfalso. rewrite Forall_forall in Htools, Hres.
      destruct Hin as [Hin | Hin]; [apply Htools in Hin | apply Hres in Hin];
        exact (Hin _ _ _ _ _ Hbody).
  - rewrite (handle_request_not_dict _ _ _ Hnot). unfold raised. right. eauto.
Qed.

(** X9. On a server whose registered functions fail only with instances
    of [Exception], the loop prints exactly one line per line read, each
    the encoding of a response envelope, and ends only at the end of the
    input: no line, malformed or failing, stops it. *)
Theorem run_answers_every_line (self : MCPServer) (stdin : list string) (w : World) :
  handlers_raise_only_exceptions self ->
  Forall (fun line => line <> "") stdin ->
  exists out w',
    run self stdin w = (out, EndOfInput, w') /\
    length out = length stdin /\
    Forall is_printed_envelope out.
Proof.
  intros Hself Hlines. revert w.
  induction Hlines as [| line rest Hline _ IH]; intros w.
  - exists [], w. repeat split. constructor.
  - cbn [run]. apply String.eqb_neq in Hline. rewrite Hline.
    destruct (serve_line_cases self line w Hself)
      as [(printed & w' & -> & Hprinted) | (cls & msg & w' & ->)].
    + destruct (IH w') as (out & w'' & -> & Hlen & Hall).
      exists (printed :: out), w''. repeat split; [simpl; now rewrite Hlen |].
      now constructor.
    + rewrite error_response_dumps by reflexivity.
      destruct (IH w') as (out & w'' & -> & Hlen & Hall).
      do 2 eexists. repeat split; [simpl; now rewrite Hlen |].
      constructor; [| exact Hall].
      exists VNone. eexists. split; [| reflexivity]. right. do 2 eexists. reflexivity.
Qed.

(* ---------------------------------------------------------------- *)
(** *** Arguments that do not bind *)

Lemma find_none_forall {A : Type} (f : A -> bool) (l : list A) :
  find f l = None <-> Forall (fun x => f x = false) l.
Proof.
  induction l as [| x l IH]; simpl.
  - split; [constructor | reflexivity].
  - destruct (f x) eqn:E.
    + split; [discriminate | intros H; inversion H; congruence].
    + rewrite IH. split; [now constructor | intros H; now inversion H].
Qed.

Lemma find_some_in {A : Type} (f : A -> bool) (l : list A) (x : A) :
  find f l = Some x -> In x l /\ f x = true.
Proof.
  induction l as [| y l IH]; simpl; [discriminate |].
  destruct (f y) eqn:E.
  - intros H. injection H as ->. auto.
  - intros H. destruct (IH H). auto.
Qed.

(** What [bind_arguments] raises is an [Exception]. *)
Lemma bind_arguments_raises (func : pyfunc) (kwargs : dict value) (e : pyexc) :
  bind_arguments func kwargs = Raises e -> exists msg, e = Exc "TypeError" msg.
Proof.
  unfold bind_arguments, raised. intros H.
  repeat (break_match_in H; try discriminate); injection H as <-; eexists; reflexivity.
Qed.

(** X11. For a registered tool whose parameters are all
    positional-or-keyword, as those of every tool of the repository are:
    [tools/call] with arguments that do not bind is answered with code
    -32603 and the body of the tool is not run (the world is untouched).
    That is so when [arguments] is not a JSON object; when a keyword names
    no parameter; when every keyword names a parameter and a parameter
    without default is given no value, in which case the message is about
    all such parameters, in signature order; in short, whenever Python
    refuses the call. *)
Theorem unbound_arguments_answer (self : MCPServer) (fields params : dict value)
    (tool_name : string) (func : pyfunc) (w : World) :
  dict_get_default fields "method" VNone = VStr "tools/call" ->
  dict_get_default fields "params" (VDict []) = VDict params ->
  dict_get_default params "name" VNone = VStr tool_name ->
  dict_contains (tools self) tool_name = true ->
  dict_get (tool_functions self) tool_name = Some func ->
  ((forall kwargs, dict_get_default params "arguments" (VDict []) <> VDict kwargs) ->
   handle_request self (VDict fields) w =
     (Returns (_error_response (dict_get_default fields "id" VNone) (-32603)
                 (interp_msg (NotAMapping (fn_name func)
                                (dict_get_default params "arguments" (VDict []))))), w)) /\
  (forall kwargs,
     dict_get_default params "arguments" (VDict []) = VDict kwargs ->
     (forall key, In key (dict_keys kwargs) -> is_param (fn_params func) key = false ->
        exists key',
          In key' (dict_keys kwargs) /\ is_param (fn_params func) key' = false /\
          handle_request self (VDict fields) w =
            (Returns (_error_response (dict_get_default fields "id" VNone) (-32603)
                        (interp_msg (UnexpectedKeyword (fn_name func) key'))), w)) /\
     (Forall (fun key => is_param (fn_params func) key = true) (dict_keys kwargs) ->
      forall p, In p (fn_params func) -> is_missing kwargs p = true ->
        handle_request self (VDict fields) w =
          (Returns (_error_response (dict_get_default fields "id" VNone) (-32603)
                      (interp_msg (MissingArguments (fn_name func)
                                     (map p_name (filter (is_missing kwargs)
                                                         (fn_params func)))))), w)) /\
     (Inspect.binds (map Inspect.of_param (fn_params func)) kwargs = false ->
      exists response message,
        handle_request self (VDict fields) w = (Returns response, w) /\
        response = _error_response (dict_get_default fields "id" VNone) (-32603) message /\
        response_error_code response = Some (VInt (-32603)))).
Proof.
  intros Hm Hp Hn Hin Hget.
  rewrite handle_request_on_dict, Hm, Hp.
  unfold try_except_Exception, route. cbn [py_eq_str String.eqb Ascii.eqb Bool.eqb].
  unfold _handle_tool_call, bind, lift, ret, py_get, py_not_in, py_getitem.
  rewrite Hn. cbn [hashable is_key]. rewrite Hin, Hget. cbn [negb].
  split.
  - intros Hnot. unfold py_call_star, raise, raised.
    destruct (dict_get_default params "arguments" (VDict [])); try reflexivity.
    now contradiction (Hnot entries).
  - intros kwargs ->. unfold py_call_star, py_call, bind, lift.
    split; [| split].
    + unfold bind_arguments, raised.
      intros key Hkey Hnotparam.
      destruct (find (fun k => negb (is_param (fn_params func) k)) (dict_keys kwargs))
        as [key' |] eqn:E.
      * apply find_some_in in E. destruct E as [Hin' Hneg].
        apply negb_true_iff in Hneg. exists key'. auto.
      * exfalso. apply find_none_forall in E. rewrite Forall_forall in E.
        specialize (E key Hkey). rewrite Hnotparam in E. discriminate.
    + unfold bind_arguments, raised.
      intros Hall p Hp' Hmiss.
      assert (E : find (fun k => negb (is_param (fn_params func) k)) (dict_keys kwargs) = None).
      { apply find_none_forall. eapply Forall_impl; [| exact Hall].
        intros k Hk. simpl in Hk. now rewrite Hk. }
      rewrite E.
      destruct (filter (is_missing kwargs) (fn_params func)) as [| q qs] eqn:F.
      * exfalso. assert (Hf : In p (filter (is_missing kwargs) (fn_params func)))
          by (apply filter_In; auto).
        rewrite F in Hf. exact Hf.
      * reflexivity.
    + intros Hrefused.
      destruct (bind_arguments func kwargs) as [bound | e] eqn:E.
      * assert (Hb : Inspect.binds (map Inspect.of_param (fn_params func)) kwargs = true)
          by (apply binds_of_params; eauto).
        congruence.
      * apply bind_arguments_raises in E. destruct E as [message ->].
        do 2 eexists. split; [reflexivity |]. split; reflexivity.
Qed.

(* ---------------------------------------------------------------- *)
(** *** The schema a tool advertises *)

Lemma names_of_strings (names : list string) :
  flat_map (fun v => match v with VStr s => [s] | _ => [] end) (map VStr names) = names.
Proof.
  induction names as [| n names IH]; simpl; [reflexivity | now rewrite IH].
Qed.

Lemma schema_required_of (func : pyfunc) :
  schema_required (_get_schema func) =
  map p_name (filter (fun p => negb (is_receiver p) && lacks_default p) (fn_params func)).
Proof.
  unfold _get_schema, schema_of_params, schema_loop.
  pose proof (schema_loop_required (fn_params func) [] []) as Hreq.
  unfold dict in *.
  destruct (fold_left _ _ _) as [properties required].
  simpl in Hreq. subst required.
  unfold schema_required. cbn [dict_get String.eqb Ascii.eqb Bool.eqb].
  apply names_of_strings.
Qed.

Lemma schema_properties_of (func : pyfunc) :
  schema_properties (_get_schema func) = fst (schema_loop (fn_params func)).
Proof.
  unfold _get_schema, schema_of_params. unfold dict in *.
  destruct (schema_loop (fn_params func)) as [properties required].
  reflexivity.
Qed.

Lemma json_type_name (a : annotation) :
  In (_python_type_to_json_type a) json_type_names.
Proof.
  destruct a as [c | c args | text]; try destruct c; simpl; tauto.
Qed.

Lemma schema_loop_properties (params : list param) (properties : dict value) (required : list string) :
  dict_keys (fst (fold_left schema_step params (properties, required))) =
    keys_after (dict_keys properties)
      (map p_name (filter (fun p => negb (is_receiver p)) params)) /\
  (Forall (fun kv => exists t, snd kv = VDict [("type", VStr t)] /\ In t json_type_names)
          properties ->
   Forall (fun kv => exists t, snd kv = VDict [("type", VStr t)] /\ In t json_type_names)
          (fst (fold_left schema_step params (properties, required)))).
Proof.
  revert properties required.
  induction params as [| p params IH]; intros properties required; simpl; [auto |].
  unfold is_receiver at 1 3.
  destruct (String.eqb (p_name p) "self") eqn:E; simpl; [apply IH |].
  assert (Hstep : forall req,
    dict_keys (fst (fold_left schema_step params
       (dict_set properties (p_name p)
          (VDict [("type", VStr (_python_type_to_json_type (param_type p)))]), req))) =
      keys_after (dict_keys properties)
        (p_name p :: map p_name (filter (fun p0 => negb (is_receiver p0)) params)) /\
    (Forall (fun kv => exists t, snd kv = VDict [("type", VStr t)] /\ In t json_type_names)
            properties ->
     Forall (fun kv => exists t, snd kv = VDict [("type", VStr t)] /\ In t json_type_names)
            (fst (fold_left schema_step params
               (dict_set properties (p_name p)
                  (VDict [("type", VStr (_python_type_to_json_type (param_type p)))]),
                req))))).
  { intros req. destruct (IH (dict_set properties (p_name p)
       (VDict [("type", VStr (_python_type_to_json_type (param_type p)))])) req) as [Hk Hv].
    split.
    - rewrite Hk. unfold keys_after. simpl.
      now rewrite dict_keys_set_cases, dict_contains_existsb.
    - intros Hprops. apply Hv. apply dict_set_forall; [exact Hprops |].
      eexists. split; [reflexivity | apply json_type_name]. }
  destruct (p_default p); apply Hstep.
Qed.

Lemma dict_get_in {V : Type} (d : dict V) (key : string) (v : V) :
  dict_get d key = Some v -> In (key, v) d.
Proof.
  induction d as [| [k x] d IH]; simpl; [discriminate |].
  destruct (String.eqb k key) eqn:E.
  - apply String.eqb_eq in E. subst k. intros H. injection H as ->. now left.
  - intros H. right. now apply IH.
Qed.

Lemma first_occurrences_in (names : list string) (n : string) :
  In n (first_occurrences names) <-> In n names.
Proof.
  induction names as [| m names IH]; simpl; [tauto |].
  rewrite filter_In, IH. split.
  - intros [H | [H _]]; auto.
  - intros [H | H]; [now left |].
    destruct (String.eqb n m) eqn:E.
    + apply String.eqb_eq in E. now left.
    + right. split; [exact H | reflexivity].
Qed.

(** X13. The schema a function is given: [properties] has one entry per
    parameter name other than [self], in signature order; each entry is a
    one-key object whose [type] is one of the six JSON type names; and
    every name in [required] is a key of [properties]. *)
Theorem schema_is_well_formed (func : pyfunc) :
  dict_keys (schema_properties (_get_schema func)) =
    first_occurrences (map p_name (filter (fun p => negb (is_receiver p)) (fn_params func))) /\
  (forall n v,
     dict_get (schema_properties (_get_schema func)) n = Some v ->
     exists t, v = VDict [("type", VStr t)] /\ In t json_type_names) /\
  (forall n,
     In n (schema_required (_get_schema func)) ->
     dict_contains (schema_properties (_get_schema func)) n = true).
Proof.
  rewrite schema_properties_of, schema_required_of. unfold schema_loop.
  destruct (schema_loop_properties (fn_params func) [] []) as [Hkeys Hvals].
  rewrite keys_after_empty in Hkeys.
  split; [exact Hkeys |]. split.
  - intros n v Hget. apply dict_get_in in Hget.
    specialize (Hvals (Forall_nil _)). rewrite Forall_forall in Hvals.
    exact (Hvals _ Hget).
  - intros n Hn. apply dict_contains_keys. unfold dict in *. rewrite Hkeys.
    apply first_occurrences_in.
    apply in_map_iff in Hn. destruct Hn as (p & <- & Hp).
    apply filter_In in Hp. destruct Hp as [Hp Hkeep].
    apply andb_true_iff in Hkeep. destruct Hkeep as [Hself _].
    apply in_map. apply filter_In. auto.
Qed.

(* ---------------------------------------------------------------- *)
(** *** The name of a resource *)

Lemma prefix_app (sep s t : string) :
  String.prefix sep s = true -> String.prefix sep (s ++ t) = true.
Proof.
  revert s. induction sep as [| c sep IH]; intros s H.
  - now destruct (s ++ t)%string.
  - destruct s as [| c' s]; simpl in *; [discriminate |].
    destruct (ascii_dec c c'); [now apply IH | discriminate].
Qed.

(** The text before the first occurrence holds no occurrence. *)
Lemma str_partition_before (sep s before after : string) :
  sep <> EmptyString ->
  str_partition sep s = Some (before, after) ->
  str_partition sep before = None.
Proof.
  intros Hsep. revert before after.
  induction s as [| c s IH]; intros before after H.
  - cbn [str_partition] in H. destruct (String.prefix sep "") eqn:P; [| discriminate].
    destruct sep; [congruence | discriminate].
  - cbn [str_partition] in H. destruct (String.prefix sep (String c s)) eqn:P.
    + injection H as <- <-. cbn [str_partition].
      destruct sep; [congruence | reflexivity].
    + destruct (str_partition sep s) as [[b a] |] eqn:E; [| discriminate].
      injection H as <- <-. cbn [str_partition].
      destruct (String.prefix sep (String c b)) eqn:P'.
      * exfalso. apply (prefix_app _ _ (sep ++ a)) in P'.
        apply str_partition_spec in E. subst s. cbn [append] in P'.
        rewrite P in P'. discriminate.
      * now rewrite (IH b a eq_refl).
Qed.

(** X15. The name [resources/list] gives a URI never holds ["://"], and
    is never longer than the URI. *)
Theorem resource_name_has_no_separator (uri : string) :
  exists n,
    resource_name uri = Returns n /\
    str_contains "://" n = false /\
    String.length n <= String.length uri.
Proof.
  exists (first_path_segment uri). split; [apply resource_name_segment |].
  unfold first_path_segment, str_contains.
  destruct (str_partition "://" uri) as [[before after] |] eqn:E.
  - pose proof (str_partition_length _ _ _ _ E) as Hlen.
    destruct (str_partition "://" after) as [[segment rest] |] eqn:E'.
    + pose proof (str_partition_length _ _ _ _ E') as Hlen'.
      rewrite (str_partition_before "://" after segment rest) by (discriminate || exact E').
      split; [reflexivity | lia].
    + rewrite E'. split; [reflexivity | lia].
  - rewrite E. split; [reflexivity | lia].
Qed.

End Coverage.

(* ================================================================== *)
(** ** The tools [kill_process], [get_disk_usage] and [get_cpu_usage] *)

Section ToolProperties.

Context {RT : PyRuntime} {PS : Psutil}.

#[local] Notation "x <- m ;; k" := (bind m (fun x => k))
  (at level 61, m at next level, right associativity).

(** What the [try] block of [kill_process] has done when it returns. *)
Lemma kill_process_try_returns (pid force result : value) (w w' : World) :
  kill_process_try pid force w = (Returns result, w') ->
  exists process process_name w1 w2,
    psutil_Process pid w = (Returns process, w1) /\
    Process_name process w1 = (Returns process_name, w2) /\
    (if py_truthy force then Process_kill process w2 else Process_terminate process w2)
      = (Returns tt, w') /\
    result =
      VDict [ ("success", VBool true);
              ("pid", pid);
              ("name", VStr process_name);
              ("message",
               VStr ("Process " ++ py_str pid ++ " (" ++ process_name
                       ++ ") terminated successfully")) ].
Proof.
  unfold kill_process_try, bind, ret. intros H.
  destruct (psutil_Process pid w) as [[process | e] w1] eqn:E1; [| discriminate].
  destruct (Process_name process w1) as [[process_name | e] w2] eqn:E2; [| discriminate].
  exists process, process_name, w1, w2.
  destruct (py_truthy force).
  - destruct (Process_kill process w2) as [[[] | e] w3] eqn:E3; [| discriminate].
    injection H as <- <-. auto.
  - destruct (Process_terminate process w2) as [[[] | e] w3] eqn:E3; [| discriminate].
    injection H as <- <-. auto.
Qed.

(** The two ways [kill_process] can end. *)
Lemma kill_process_cases (pid force : value) (w : World) :
  (exists d w' b,
      kill_process pid force w = (Returns (VDict d), w') /\
      dict_get d "success" = Some (VBool b) /\
      dict_get d "pid" = Some pid /\
      (b = false -> exists msg, dict_get d "error" = Some (VStr msg)) /\
      (first_object pid = None -> first_object (VDict d) = None)) \/
  (exists cls msg w',
      kill_process pid force w = (Raises (BaseExc cls msg), w')).
Proof.
  unfold kill_process.
  destruct (kill_process_try pid force w) as [[result | e] w'] eqn:E.
  - apply kill_process_try_returns in E.
    destruct E as (process & process_name & w1 & w2 & _ & _ & _ & ->).
    left. do 2 eexists. exists true.
    split; [reflexivity |]. split; [reflexivity |]. split; [reflexivity |].
    split; [discriminate |].
    intros Hpid. cbn [first_object]. now rewrite Hpid.
  - destruct (exception_is NoSuchProcess e) eqn:E1;
      [| destruct (exception_is AccessDenied e) eqn:E2; [| destruct e as [cls msg | cls msg]]];
      try (left; do 2 eexists; exists false;
           split; [reflexivity |]; split; [reflexivity |]; split; [reflexivity |];
           split; [intros _; eexists; reflexivity |];
           intros Hpid; cbn [first_object]; now rewrite Hpid).
    right. eauto.
Qed.

(** X16. [kill_process] lets no [Exception] out of its [try] block.
    When the block returns, so does [kill_process], with the dictionary
    the block built: [success] true and the [pid].  When a call inside
    the block raises an instance of [Exception], [kill_process] returns a
    dictionary with [success] false, the [pid] and an [error] text: about
    a process not found for [NoSuchProcess] and its subclass, about access
    denied for [AccessDenied], and [str(e)] for any other; [json.dumps]
    can encode it when it can encode the [pid].  An exception that is not
    an [Exception] passes through. *)
Theorem kill_process_catches_exceptions (pid force : value) (w w' : World)
    (ended : outcome value) :
  kill_process_try pid force w = (ended, w') ->
  match ended with
  | Returns result =>
      kill_process pid force w = (Returns result, w') /\
      exists d,
        result = VDict d /\
        dict_get d "success" = Some (VBool true) /\
        dict_get d "pid" = Some pid
  | Raises (Exc cls msg) =>
      exists d,
        kill_process pid force w = (Returns (VDict d), w') /\
        dict_get d "success" = Some (VBool false) /\
        dict_get d "pid" = Some pid /\
        dict_get d "error" =
          Some (VStr (if existsb (String.eqb cls) NoSuchProcess
                      then "No process found with PID " ++ py_str pid
                      else if existsb (String.eqb cls) AccessDenied
                           then "Access denied to terminate process " ++ py_str pid
                           else msg)) /\
        (first_object pid = None -> first_object (VDict d) = None)
  | Raises (BaseExc cls msg) =>
      kill_process pid force w = (Raises (BaseExc cls msg), w')
  end.
Proof.
  intros Htry. unfold kill_process. rewrite Htry.
  destruct ended as [result | [cls msg | cls msg]].
  - split; [reflexivity |]. apply kill_process_try_returns in Htry.
    destruct Htry as (process & process_name & w1 & w2 & _ & _ & _ & ->).
    eexists. split; [reflexivity |]. split; reflexivity.
  - cbn [exception_is].
    destruct (existsb (String.eqb cls) NoSuchProcess);
      [| destruct (existsb (String.eqb cls) AccessDenied)];
      eexists; (split; [reflexivity |]); (split; [reflexivity |]);
      (split; [reflexivity |]); (split; [reflexivity |]);
      intros Hpid; cbn [first_object]; now rewrite Hpid.
  - reflexivity.
Qed.

(** X17. [kill_process] reports success only after it obtained the
    process, read its name and sent it one signal, in that order: [kill]
    when [force] is true, [terminate] otherwise; the result then names the
    process. *)
Theorem kill_process_success (pid force : value) (w w' : World) (d : dict value) :
  kill_process pid force w = (Returns (VDict d), w') ->
  dict_get d "success" = Some (VBool true) ->
  exists process process_name w1 w2,
    psutil_Process pid w = (Returns process, w1) /\
    Process_name process w1 = (Returns process_name, w2) /\
    (if py_truthy force then Process_kill process w2 else Process_terminate process w2)
      = (Returns tt, w') /\
    d = [ ("success", VBool true);
          ("pid", pid);
          ("name", VStr process_name);
          ("message",
           VStr ("Process " ++ py_str pid ++ " (" ++ process_name
                   ++ ") terminated successfully")) ].
Proof.
  unfold kill_process. intros H Hsuccess.
  destruct (kill_process_try pid force w) as [[result | e] w0] eqn:E.
  - injection H as -> ->. apply kill_process_try_returns in E.
    destruct E as (process & process_name & w1 & w2 & H1 & H2 & H3 & Hd).
    injection Hd as ->. exists process, process_name, w1, w2. auto.
  - exfalso.
    destruct (exception_is NoSuchProcess e);
      [| destruct (exception_is AccessDenied e); [| destruct e as [cls msg | cls msg]]];
      try discriminate; injection H as <- <-; discriminate.
Qed.

(** X18. Through the server: a [tools/call] of [kill_process] whose
    arguments are JSON values and bind is never answered with an error
    envelope.  Whatever [psutil] raises (no such process, access denied,
    a [pid] of the wrong type), the answer is a result whose text encodes
    a dictionary with the [pid] and the boolean [success]. *)
Theorem kill_process_reports_in_band (self : MCPServer) (fields params kwargs bound : dict value)
    (w : World) :
  dict_get_default fields "method" VNone = VStr "tools/call" ->
  dict_get_default fields "params" (VDict []) = VDict params ->
  dict_get_default params "name" VNone = VStr "kill_process" ->
  dict_contains (tools self) "kill_process" = true ->
  dict_get (tool_functions self) "kill_process" = Some kill_process_tool ->
  dict_get_default params "arguments" (VDict []) = VDict kwargs ->
  first_object (VDict kwargs) = None ->
  bind_arguments kill_process_tool kwargs = Returns bound ->
  (exists d w' b,
      handle_request self (VDict fields) w =
        (Returns
           (result_response (dict_get_default fields "id" VNone)
              (VDict [("content",
                       VList [VDict [ ("type", VStr "text");
                                      ("text", VStr (json_encode (Some 2%nat) (VDict d))) ]])])),
         w') /\
      dict_get d "success" = Some (VBool b) /\
      dict_get d "pid" = Some (dict_get_default kwargs "pid" VNone)) \/
  (exists cls msg w',
      handle_request self (VDict fields) w = (Raises (BaseExc cls msg), w')).
Proof.
  intros Hm Hp Hn Hin Hget Hargs Hjson Hbind.
  rewrite handle_request_on_dict, Hm, Hp.
  unfold try_except_Exception, route. cbn [py_eq_str String.eqb Ascii.eqb Bool.eqb].
  unfold _handle_tool_call, bind, lift, ret, py_get, py_not_in, py_getitem.
  rewrite Hn, Hargs. cbn [hashable is_key]. rewrite Hin, Hget. cbn [negb].
  unfold py_call_star, py_call, bind, lift. rewrite Hbind.
  assert (Hbound : bound = map (bound_value kwargs) (fn_params kill_process_tool)).
  { unfold bind_arguments in Hbind.
    repeat (break_match_in Hbind; try discriminate). now injection Hbind as <-. }
  assert (Hpid : dict_get_default bound "pid" VNone = dict_get_default kwargs "pid" VNone).
  { subst bound. unfold bind_arguments in Hbind.
    destruct (find _ (dict_keys kwargs)); [discriminate |].
    destruct (filter (is_missing kwargs) (fn_params kill_process_tool)) eqn:F; [| discriminate].
    cbn in F. unfold dict_contains in F. cbn.
    unfold dict_get_default. destruct (dict_get kwargs "pid"); [reflexivity | discriminate]. }
  cbn [fn_body kill_process_tool]. rewrite Hpid.
  assert (Hpidjson : first_object (dict_get_default kwargs "pid" VNone) = None)
    by (apply first_object_field; [exact Hjson | reflexivity]).
  destruct (kill_process_cases (dict_get_default kwargs "pid" VNone)
              (dict_get_default bound "force" VNone) w)
    as [(d & w' & b & -> & Hs & Hd & _ & Hser) | (cls & msg & w' & ->)].
  - left. exists d, w', b. unfold json_dumps. rewrite (Hser Hpidjson). auto.
  - right. eauto.
Qed.

(* ---------------------------------------------------------------- *)

Lemma disk_loop_entries (partitions : list sdiskpart) (acc listed : list value) (w w' : World) :
  disk_loop partitions acc w = (Returns listed, w') ->
  exists entries, listed = acc ++ entries /\ Forall2 entry_of_partition partitions entries.
Proof.
  revert acc w. induction partitions as [| partition rest IH]; intros acc w H.
  - injection H as <- <-. exists []. split; [now rewrite app_nil_r | constructor].
  - cbn [disk_loop] in H.
    destruct (psutil_disk_usage (part_mountpoint partition) w) as [[usage | e] w1].
    + apply IH in H. destruct H as (entries & -> & Hall).
      exists (disk_entry partition usage :: entries).
      split; [now rewrite <- app_assoc |]. constructor; [| exact Hall].
      eexists. split; [reflexivity |]. split; reflexivity.
    + destruct (exception_is PermissionError e); [| discriminate].
      apply IH in H. destruct H as (entries & -> & Hall).
      exists (disk_error_entry partition :: entries).
      split; [now rewrite <- app_assoc |]. constructor; [| exact Hall].
      eexists. split; [reflexivity |]. split; reflexivity.
Qed.

Lemma disk_loop_returns (partitions : list sdiskpart) (acc : list value) (w : World) :
  (forall mountpoint w1 e w2,
     psutil_disk_usage mountpoint w1 = (Raises e, w2) -> exception_is PermissionError e = true) ->
  exists listed w', disk_loop partitions acc w = (Returns listed, w').
Proof.
  intros Honly. revert acc w.
  induction partitions as [| partition rest IH]; intros acc w; cbn [disk_loop].
  - unfold ret. eauto.
  - destruct (psutil_disk_usage (part_mountpoint partition) w) as [[usage | e] w1] eqn:E.
    + apply IH.
    + rewrite (Honly _ _ _ _ E). apply IH.
Qed.

(** X19. [get_disk_usage] lists one entry per partition that
    [psutil.disk_partitions()] reports, in the same order, each carrying
    the device and the mount point of its partition; a partition whose
    usage raises [PermissionError] gets an entry all the same, and the
    listing goes on.  When [psutil.disk_usage] fails in no other way, the
    tool returns. *)
Theorem disk_usage_lists_every_partition (partitions : list sdiskpart) (w w0 : World) :
  psutil_disk_partitions w = (Returns partitions, w0) ->
  (forall result w',
     get_disk_usage w = (Returns result, w') ->
     exists entries, result = VList entries /\ Forall2 entry_of_partition partitions entries) /\
  ((forall mountpoint w1 e w2,
      psutil_disk_usage mountpoint w1 = (Raises e, w2) ->
      exception_is PermissionError e = true) ->
   exists entries w', get_disk_usage w = (Returns (VList entries), w')).
Proof.
  intros Hparts. unfold get_disk_usage, bind, ret. rewrite Hparts. split.
  - intros result w' H.
    destruct (disk_loop partitions [] w0) as [[listed | e] w1] eqn:E; [| discriminate].
    injection H as <- <-. apply disk_loop_entries in E.
    destruct E as (entries & -> & Hall). exists entries. auto.
  - intros Honly.
    destruct (disk_loop_returns partitions [] w0 Honly) as (listed & w' & ->). eauto.
Qed.

(* ---------------------------------------------------------------- *)

(** X20. The two versions of [get_cpu_usage] differ only on a
    [FileNotFoundError] or [PermissionError] of [psutil.cpu_freq()]: where
    it raises neither, they do the same; where it raises one of them, the
    version of [server.py] raises it, and the version of
    [server_standalone.py] goes on, with the frequency reported as not
    available, so that it returns whenever the two remaining reads do. *)
Theorem cpu_frequency_failure_is_tolerated (interval : value) (w : World) :
  ((forall w1 e w2,
      psutil_cpu_freq w1 = (Raises e, w2) ->
      exception_is (FileNotFoundError ++ PermissionError) e = false) ->
   get_cpu_usage interval w = get_cpu_usage_fastmcp interval w) /\
  (forall cpu_percent w1 e w2,
     psutil_cpu_percent interval true w = (Returns cpu_percent, w1) ->
     psutil_cpu_freq w1 = (Raises e, w2) ->
     exception_is (FileNotFoundError ++ PermissionError) e = true ->
     get_cpu_usage_fastmcp interval w = (Raises e, w2) /\
     get_cpu_usage interval w = cpu_usage_result interval cpu_percent frequency_unavailable w2 /\
     forall total_percent w3 load w4,
       psutil_cpu_percent interval false w2 = (Returns total_percent, w3) ->
       load_average w3 = (Returns load, w4) ->
       get_cpu_usage interval w =
         (Returns (VDict [ ("total_percent", total_percent);
                           ("per_cpu_percent", cpu_percent);
                           ("frequency", frequency_unavailable);
                           ("load_average", load) ]), w4)).
Proof.
  split.
  - intros Hnever. unfold get_cpu_usage, get_cpu_usage_fastmcp, bind.
    destruct (psutil_cpu_percent interval true w) as [[cpu_percent | e] w1]; [| reflexivity].
    destruct (psutil_cpu_freq w1) as [[cpu_freq | e] w2] eqn:E; [reflexivity |].
    now rewrite (Hnever _ _ _ E).
  - intros cpu_percent w1 e w2 Hper Hfreq Hclass.
    assert (Hgo : get_cpu_usage interval w =
                  cpu_usage_result interval cpu_percent frequency_unavailable w2).
    { unfold get_cpu_usage, bind. now rewrite Hper, Hfreq, Hclass. }
    split; [| split; [exact Hgo |]].
    + unfold get_cpu_usage_fastmcp, bind. now rewrite Hper, Hfreq.
    + intros total_percent w3 load w4 Htotal Hload.
      rewrite Hgo. unfold cpu_usage_result, bind, ret. now rewrite Htotal, Hload.
Qed.

End ToolProperties.

(* ================================================================== *)
(** ** The second server at work *)

Module MoreExamples.

Import Demo2.

Lemma demo2_handlers : handlers_raise_only_exceptions server.
Proof.
  split; cbn; repeat apply Forall_cons; try apply Forall_nil;
    intros bound w cls msg w' H; cbn in H;
    try (unfold kill_process, kill_process_try, get_disk_usage, bind, ret in H; cbn in H);
    repeat (break_inner_in H; cbn in H; try discriminate); discriminate.
Qed.

(** A request with no [method]. *)
Lemma empty_object_answer :
  handle_request server (VDict []) [42%Z] =
  (Returns (_error_response VNone (-32601) "Method not found: None"), [42%Z]).
Proof. exact (unknown_method_answer server [] [42%Z] eq_refl). Defined.

Lemma initialize_on_demo :
  handle_request server (VDict do_initialize) [42%Z] =
  (Returns
     (result_response (VInt 1)
        (VDict [ ("protocolVersion", VStr "2024-11-05");
                 ("capabilities", VDict [("tools", VDict []); ("resources", VDict [])]);
                 ("serverInfo",
                  VDict [("name", VStr "SystemMonitor"); ("version", VStr "1.0.0")]) ])),
   [42%Z]).
Proof. exact (initialize_answer "SystemMonitor" regs do_initialize [42%Z] eq_refl). Defined.

(** [now] was registered twice: it is listed once, second, with the
    docstring of its latest registration. *)
Lemma tools_list_on_demo :
  exists funcs,
    handle_request server (VDict list_tools) [42%Z] =
      (Returns (result_response (VInt 2)
                  (VDict [("tools", VList (map tool_descriptor funcs))])), [42%Z]) /\
    map fn_name funcs = ["kill_process"; "now"; "get_disk_usage"] /\
    Forall (fun func => latest_tool regs (fn_name func) = Some func) funcs.
Proof. exact (tools_list_answer "SystemMonitor" regs list_tools [42%Z] eq_refl). Defined.

(** The lines [[]] and [7] are JSON and no objects. *)
Lemma array_line_answer :
  run server ["[]"; "7"] [42%Z] =
  ([ Demo.encode (_error_response VNone (-32700) "Parse error: object has no attribute get");
     Demo.encode (_error_response VNone (-32700) "Parse error: object has no attribute get") ],
   EndOfInput, [42%Z]).
Proof.
  assert (Hne : "[]" <> "") by discriminate.
  assert (Hnot : forall fields, VList [] <> VDict fields) by discriminate.
  exact (non_object_line_reported server "[]" ["7"] [42%Z] (VList []) Hne eq_refl Hnot).
Defined.

(** The resource [system://clock] returns a [datetime]. *)
Lemma clock_is_not_printed :
  handle_request server (VDict read_clock) [42%Z] =
    (Returns
       (result_response (VInt 3)
          (VDict [("contents",
                   VList [VDict [ ("uri", VStr "system://clock");
                                  ("mimeType", VStr "text/plain");
                                  ("text", VObject "datetime") ]])])),
     [42%Z]) /\
  run server [Demo.encode (VDict read_clock)] [42%Z] =
    ([ Demo.encode (_error_response VNone (-32700)
                      "Parse error: Object of type datetime is not JSON serializable") ],
     EndOfInput, [42%Z]).
Proof.
  assert (Hne : Demo.encode (VDict read_clock) <> "") by (vm_compute; discriminate).
  exact (resource_content_not_serializable server read_clock
           [("uri", VStr "system://clock")] "system://clock" "datetime" clock
           (VObject "datetime") [42%Z] [42%Z] (Demo.encode (VDict read_clock)) []
           eq_refl eq_refl eq_refl eq_refl eq_refl eq_refl Hne eq_refl).
Defined.

(** The tool [now] returns a [datetime]. *)
Lemma now_is_an_internal_error :
  handle_request server (VDict call_now) [42%Z] =
  (Returns (_error_response (VInt 5) (-32603)
              "Object of type datetime is not JSON serializable"), [42%Z]).
Proof.
  exact (tool_result_not_serializable server call_now [("name", VStr "now")] [] []
           "now" "datetime" now (VObject "datetime") [42%Z] [42%Z]
           eq_refl eq_refl eq_refl eq_refl eq_refl eq_refl eq_refl eq_refl eq_refl).
Defined.

(** Three lines in, three lines out. *)
Lemma three_lines_answered :
  handlers_raise_only_exceptions server /\
  exists out w',
    run server ["nonsense"; "[]"; Demo.encode (VDict call_now)] [42%Z] = (out, EndOfInput, w') /\
    length out = 3 /\
    Forall is_printed_envelope out.
Proof.
  split; [exact demo2_handlers |].
  assert (Hlines : Forall (fun line => line <> "")
                     ["nonsense"; "[]"; Demo.encode (VDict call_now)]).
  { repeat constructor; discriminate. }
  exact (run_answers_every_line server _ [42%Z] demo2_handlers Hlines).
Defined.

(** [kill_process] called with a keyword it does not have, and with none. *)
Lemma kill_process_with_wrong_arguments :
  (exists key',
      In key' ["bogus"] /\ is_param (fn_params kill_process_tool) key' = false /\
      handle_request server (VDict (call_kill [("bogus", VInt 1)])) [42%Z] =
        (Returns (_error_response (VInt 6) (-32603)
                    (interp_msg (UnexpectedKeyword "kill_process" key'))), [42%Z])) /\
  handle_request server (VDict (call_kill [])) [42%Z] =
    (Returns (_error_response (VInt 6) (-32603)
                "kill_process() missing required arguments: pid"), [42%Z]).
Proof.
  split.
  - exact (proj1 (proj2 (unbound_arguments_answer server (call_kill [("bogus", VInt 1)])
                           [("name", VStr "kill_process");
                            ("arguments", VDict [("bogus", VInt 1)])]
                           "kill_process" kill_process_tool [42%Z]
                           eq_refl eq_refl eq_refl eq_refl eq_refl)
                        [("bogus", VInt 1)] eq_refl)
             "bogus" (or_introl eq_refl) eq_refl).
  - exact (proj1 (proj2 (proj2 (unbound_arguments_answer server (call_kill [])
                                  [("name", VStr "kill_process"); ("arguments", VDict [])]
                                  "kill_process" kill_process_tool [42%Z]
                                  eq_refl eq_refl eq_refl eq_refl eq_refl)
                               [] eq_refl))
             (Forall_nil _)
             {| p_name := "pid"; p_annotation := Some (AClass Tint); p_default := None |}
             (or_introl eq_refl) eq_refl).
Defined.

(** [kill_process] needs [pid] and nothing else. *)
Lemma kill_process_binds_with_pid :
  schema_required (_get_schema kill_process_tool) = ["pid"] /\
  Inspect.binds (map Inspect.of_param (fn_params kill_process_tool)) [("pid", VInt 42)]
    = true /\
  Inspect.binds (map Inspect.of_param (fn_params kill_process_tool)) [("force", VBool true)]
    = false.
Proof.
  assert (Hkw : Forall (fun p => Inspect.takes_keyword p = true)
                  (map Inspect.of_param (fn_params kill_process_tool)))
    by (repeat constructor).
  assert (Hself : Forall (fun p => Inspect.par_name p <> "self")
                    (map Inspect.of_param (fn_params kill_process_tool)))
    by (repeat constructor; discriminate).
  assert (Hdef : Forall Inspect.ordinary_default
                   (map Inspect.of_param (fn_params kill_process_tool)))
    by (repeat constructor; intros cls r Hr; discriminate Hr).
  split; [reflexivity |]. split.
  - apply (required_is_what_binding_needs _ [("pid", VInt 42)] _ Hkw Hself Hdef
             (get_schema_of_params kill_process_tool)).
    + repeat constructor.
    + repeat constructor.
  - destruct (Inspect.binds _ [("force", VBool true)]) eqn:B; [| reflexivity].
    apply (required_is_what_binding_needs _ [("force", VBool true)] _ Hkw Hself Hdef
             (get_schema_of_params kill_process_tool)) in B.
    + inversion B as [| n ns Hpid _]. discriminate Hpid.
    + repeat constructor.
Defined.

(** The [pid] entry of the schema of [kill_process]. *)
Lemma kill_process_schema_entry :
  dict_get (schema_properties (_get_schema kill_process_tool)) "pid" =
    Some (VDict [("type", VStr "integer")]) /\
  exists t, VDict [("type", VStr "integer")] = VDict [("type", VStr t)] /\ In t json_type_names.
Proof.
  split; [reflexivity |].
  exact (proj1 (proj2 (schema_is_well_formed kill_process_tool)) "pid" _ eq_refl).
Defined.

(** [quit] ends the loop: the [initialize] after it is not answered. *)
Lemma quit_ends_the_loop :
  run server_with_quit [Demo.encode (VDict call_quit); Demo.encode (VDict do_initialize)]
      [42%Z] =
  ([], Uncaught (BaseExc "SystemExit" "0"), [42%Z]).
Proof.
  assert (Hne : Demo.encode (VDict call_quit) <> "") by (vm_compute; discriminate).
  assert (Hrouted : handler_call server_with_quit call_quit (py_call_star quit (VDict []))).
  { exact (ToolCall server_with_quit call_quit [("name", VStr "quit")] "quit" quit
             eq_refl eq_refl eq_refl eq_refl eq_refl). }
  exact (base_exception_ends_loop server_with_quit call_quit (py_call_star quit (VDict []))
           (Demo.encode (VDict call_quit)) [Demo.encode (VDict do_initialize)]
           [42%Z] [42%Z] "SystemExit" "0" Hrouted eq_refl Hne eq_refl).
Defined.

(** [quit] leaves through [sys.exit]: the call is routed to a registered
    function, which raises, and there is no response, with -32603 or
    another code; the loop ends, and the line after it is not served. *)
Lemma system_exit_is_not_answered :
  handler_call server_with_quit call_quit (py_call_star quit (VDict [])) /\
  py_call_star quit (VDict []) [42%Z] = (Raises (BaseExc "SystemExit" "0"), [42%Z]) /\
  handle_request server_with_quit (VDict call_quit) [42%Z] =
    (Raises (BaseExc "SystemExit" "0"), [42%Z]) /\
  json_loads (Demo.encode (VDict call_quit)) = inl (VDict call_quit) /\
  run server_with_quit [Demo.encode (VDict call_quit); Demo.encode (VDict do_initialize)]
      [42%Z] =
    ([], Uncaught (BaseExc "SystemExit" "0"), [42%Z]).
Proof.
  split.
  - exact (ToolCall server_with_quit call_quit [("name", VStr "quit")] "quit" quit
             eq_refl eq_refl eq_refl eq_refl eq_refl).
  - repeat split; vm_compute; reflexivity.
Qed.

(** Process 1 may not be terminated: the caller reads so in the result. *)
Lemma terminate_1_is_denied :
  kill_process_try (VInt 1) (VBool false) [1%Z] =
    (Raises (Exc "AccessDenied" "(pid=1)"), [1%Z]) /\
  exists d,
    kill_process (VInt 1) (VBool false) [1%Z] = (Returns (VDict d), [1%Z]) /\
    dict_get d "success" = Some (VBool false) /\
    dict_get d "pid" = Some (VInt 1) /\
    dict_get d "error" = Some (VStr "Access denied to terminate process 1").
Proof.
  split; [reflexivity |].
  destruct (kill_process_catches_exceptions (RT := runtime) (PS := psutil)
              (VInt 1) (VBool false) [1%Z] [1%Z]
              (Raises (Exc "AccessDenied" "(pid=1)")) eq_refl)
    as (d & Hrun & Hsuccess & Hpid & Herror & _).
  exists d. split; [exact Hrun |]. split; [exact Hsuccess |]. split; [exact Hpid |].
  exact Herror.
Defined.

(** Process 42 is killed: it was found, named, and sent [kill]. *)
Lemma kill_42 :
  kill_process (VInt 42) (VBool true) [42%Z; 7%Z] =
    (Returns (VDict [ ("success", VBool true); ("pid", VInt 42); ("name", VStr "proc42");
                      ("message", VStr "Process 42 (proc42) terminated successfully") ]),
     [7%Z]) /\
  exists process process_name w1 w2,
    psutil_Process (VInt 42) [42%Z; 7%Z] = (Returns process, w1) /\
    Process_name process w1 = (Returns process_name, w2) /\
    Process_kill process w2 = (Returns tt, [7%Z]) /\
    [ ("success", VBool true); ("pid", VInt 42); ("name", VStr "proc42");
      ("message", VStr "Process 42 (proc42) terminated successfully") ] =
    [ ("success", VBool true); ("pid", VInt 42); ("name", VStr process_name);
      ("message",
       VStr ("Process " ++ py_str (VInt 42) ++ " (" ++ process_name
               ++ ") terminated successfully")) ].
Proof.
  split; [reflexivity |].
  exact (kill_process_success (VInt 42) (VBool true) [42%Z; 7%Z] [7%Z] _ eq_refl eq_refl).
Defined.

(** No process 99: the caller reads a result, not an error. *)
Lemma kill_99_through_the_server :
  (exists d w' b,
      handle_request server (VDict (call_kill [("pid", VInt 99)])) [42%Z] =
        (Returns
           (result_response (VInt 6)
              (VDict [("content",
                       VList [VDict [ ("type", VStr "text");
                                      ("text", VStr (Demo.encode (VDict d))) ]])])),
         w') /\
      dict_get d "success" = Some (VBool b) /\
      dict_get d "pid" = Some (VInt 99)) \/
  (exists cls msg w',
      handle_request server (VDict (call_kill [("pid", VInt 99)])) [42%Z] =
        (Raises (BaseExc cls msg), w')).
Proof.
  exact (kill_process_reports_in_band server (call_kill [("pid", VInt 99)])
           [("name", VStr "kill_process"); ("arguments", VDict [("pid", VInt 99)])]
           [("pid", VInt 99)] [("pid", VInt 99); ("force", VBool false)] [42%Z]
           eq_refl eq_refl eq_refl eq_refl eq_refl eq_refl eq_refl eq_refl).
Defined.

(** Two partitions, two entries, the second unreadable. *)
Lemma disks_on_demo :
  (forall mountpoint w1 e w2,
     psutil_disk_usage mountpoint w1 = (Raises e, w2) ->
     exception_is PermissionError e = true) /\
  exists entries w', get_disk_usage [42%Z] = (Returns (VList entries), w').
Proof.
  assert (Honly : forall mountpoint w1 e w2,
            psutil_disk_usage mountpoint w1 = (Raises e, w2) ->
            exception_is PermissionError e = true).
  { intros mountpoint w1 e w2 H. cbn in H.
    destruct (String.eqb mountpoint "/mnt"); [| discriminate].
    injection H as <- _. reflexivity. }
  split; [exact Honly |].
  exact (proj2 (disk_usage_lists_every_partition _ [42%Z] [42%Z] eq_refl) Honly).
Defined.

(** In the demo the frequency file is missing: the standalone tool answers. *)
Lemma cpu_usage_on_demo :
  get_cpu_usage_fastmcp (VInt 1) [42%Z] =
    (Raises (Exc "FileNotFoundError" "can't find current frequency file"), [42%Z]) /\
  get_cpu_usage (VInt 1) [42%Z] =
    (Returns (VDict [ ("total_percent", VInt 20);
                      ("per_cpu_percent", VList [VInt 10; VInt 30]);
                      ("frequency", frequency_unavailable);
                      ("load_average", VList [VInt 1; VInt 1; VInt 1]) ]), [42%Z]).
Proof.
  destruct (proj2 (cpu_frequency_failure_is_tolerated (RT := runtime) (PS := psutil)
                     (VInt 1) [42%Z])
              (VList [VInt 10; VInt 30]) [42%Z]
              (Exc "FileNotFoundError" "can't find current frequency file") [42%Z]
              eq_refl eq_refl eq_refl) as (Hfast & _ & Hgo).
  split; [exact Hfast |].
  exact (Hgo (VInt 20) [42%Z] (VList [VInt 1; VInt 1; VInt 1]) [42%Z] eq_refl eq_refl).
Defined.

End MoreExamples.
